(** * CPU_Thermal_DVFS: a lumped RC thermal network with a hysteretic DVFS controller

    Shallow embedding of [CPU_Thermal_DVFS.py].  The script integrates a
    four-node thermal network (core, SoC, package, board) with explicit
    Euler steps, once with the operating point fixed
    ([simulate_free_running]) and once under a two-threshold DVFS
    controller ([simulate_dvfs_strict]).

    Numbers.  The script computes with CPython floats and numpy float64
    scalars, both IEEE-754 binary64.  The model is written once over a
    small interface of the arithmetic the script uses ([Num]); the
    instance [float_Num] is binary64 itself (Rocq's primitive floats):
    the concrete runs below evaluate in it, and the statements about
    arithmetic are proved for it from the specification of the
    primitive operations ([FloatAxioms]).  What is proved of the
    controller alone holds under every interpretation of the interface.

    Errors.  A Python exception is a value [Raise e]; the statements of a
    loop body are sequenced in the order Python evaluates them. *)

From Stdlib Require Import ZArith List Bool Lia Floats.
Import ListNotations.

(** ** Arithmetic interface *)

Declare Scope num_scope.
Delimit Scope num_scope with num.

Class Num (F : Type) : Type := {
  nadd : F -> F -> F;
  nsub : F -> F -> F;
  nmul : F -> F -> F;
  ndiv : F -> F -> F;
  (** [x ** 2] *)
  nsqr : F -> F;
  (** [x < y]; Python's [x > y] is [nltb y x] *)
  nltb : F -> F -> bool;
  (** [x <= y] *)
  nleb : F -> F -> bool;
  (** [x == 0], the test behind [ZeroDivisionError] *)
  nis_zero : F -> bool;
  nzero : F
}.

Infix "+" := nadd : num_scope.
Infix "-" := nsub : num_scope.
Infix "*" := nmul : num_scope.
Infix "/" := ndiv : num_scope.
Infix "<?" := nltb : num_scope.
Infix "<=?" := nleb : num_scope.
Notation "x >? y" := (nltb y x) (at level 70, no associativity) : num_scope.

(** ** Python exceptions *)

Inductive PyError : Type :=
| IndexError
| ZeroDivisionError.

Inductive result (A : Type) : Type :=
| Ok (a : A)
| Raise (e : PyError).

Arguments Ok {A} a.
Arguments Raise {A} e.

Definition bind {A B : Type} (c : result A) (k : A -> result B) : result B :=
  match c with
  | Ok a => k a
  | Raise e => Raise e
  end.

Notation "x <- c ;; k" := (bind c (fun x => k))
  (at level 61, c at next level, right associativity).

Definition rmap {A B : Type} (f : A -> B) (c : result A) : result B :=
  x <- c ;; Ok (f x).

(** [l[i]] for a Python list or a one-dimensional numpy array: a negative
    index counts from the end, anything out of range raises. *)
Definition getitem {A : Type} (l : list A) (i : Z) : result A :=
  let n := Z.of_nat (length l) in
  let j := if (i <? 0)%Z then (i + n)%Z else i in
  if ((0 <=? j) && (j <? n))%Z
  then match nth_error l (Z.to_nat j) with
       | Some x => Ok x
       | None => Raise IndexError
       end
  else Raise IndexError.

(** [for i in rng: st = body(i, st)], stopping at the first exception. *)
Fixpoint for_range {St : Type} (body : nat -> St -> result St)
         (rng : list nat) (st : St) : result St :=
  match rng with
  | [] => Ok st
  | i :: rng' => st' <- body i st ;; for_range body rng' st'
  end.

Section Model.

Context {F : Type} {num : Num F}.
Local Open Scope num_scope.

(** [x / y] on two Python floats: a zero divisor raises.  Every division
    of the script except [volt / v_nom] has a module constant as divisor
    and, in the first iteration, a Python float as dividend; from the
    second iteration on the dividend may be a numpy scalar (which would
    give inf or nan instead of raising), but a zero constant has raised in
    the first iteration already. *)
Definition pydiv (x y : F) : result F :=
  if nis_zero y then Raise ZeroDivisionError else Ok (x / y).

(** ** Module constants (lines 4-30)

    [time] is the grid [np.arange(0, duration, dt)]; the simulations use
    its length only.  [cdyn_trace] is the workload, one sample per grid
    point in the script. *)
Record Config : Type := {
  dt : F;
  time : list F;
  R1 : F; C_cpu : F;
  R2 : F; C_board : F;
  R3 : F; C_amb : F;
  R4 : F; C_pkg : F;
  R5 : F;
  T_ambient : F;
  v_nom : F;
  f_nom : F;
  pleak_nom : F;
  dvfs_temp_limit : F;
  dvfs_hysteresis : F;
  voltages : list F;
  cdyn_trace : list F
}.

(** ** Node temperatures: the locals [T_cpu], [T_soc], [T_board], [T_pkg] *)
Record Temps : Type := {
  T_cpu : F;
  T_soc : F;
  T_board : F;
  T_pkg : F
}.

Definition set_T_cpu (x : F) (s : Temps) : Temps :=
  {| T_cpu := x; T_soc := T_soc s; T_board := T_board s; T_pkg := T_pkg s |}.
Definition set_T_soc (x : F) (s : Temps) : Temps :=
  {| T_cpu := T_cpu s; T_soc := x; T_board := T_board s; T_pkg := T_pkg s |}.
Definition set_T_pkg (x : F) (s : Temps) : Temps :=
  {| T_cpu := T_cpu s; T_soc := T_soc s; T_board := T_board s; T_pkg := x |}.
Definition set_T_board (x : F) (s : Temps) : Temps :=
  {| T_cpu := T_cpu s; T_soc := T_soc s; T_board := x; T_pkg := T_pkg s |}.

(** [T_cpu = T_soc = T_board = T_pkg = T_ambient] *)
Definition init_temps (cfg : Config) : Temps :=
  {| T_cpu := T_ambient cfg; T_soc := T_ambient cfg;
     T_board := T_ambient cfg; T_pkg := T_ambient cfg |}.

(** ** Thermal update (lines 42-49, and again 76-83)

    The four in-place updates are statements on the locals: each reads
    the locals as the statements before it left them, and writes one. *)

(** [T_cpu += dt / C_cpu * (power_total - q1)] *)
Definition upd_T_cpu (cfg : Config) (power_total q1 : F) (s : Temps)
  : result Temps :=
  k <- pydiv (dt cfg) (C_cpu cfg) ;;
  Ok (set_T_cpu (T_cpu s + k * (power_total - q1)) s).

(** [T_soc += dt / C_board * (q1 - q2 - q4)] *)
Definition upd_T_soc (cfg : Config) (q1 q2 q4 : F) (s : Temps)
  : result Temps :=
  k <- pydiv (dt cfg) (C_board cfg) ;;
  Ok (set_T_soc (T_soc s + k * (q1 - q2 - q4)) s).

(** [T_pkg += dt / C_pkg * (q4 - (T_pkg - T_ambient) / R5)] *)
Definition upd_T_pkg (cfg : Config) (q4 : F) (s : Temps) : result Temps :=
  k <- pydiv (dt cfg) (C_pkg cfg) ;;
  q5 <- pydiv (T_pkg s - T_ambient cfg) (R5 cfg) ;;
  Ok (set_T_pkg (T_pkg s + k * (q4 - q5)) s).

(** [T_board += dt / C_amb * (q2 - (T_board - T_ambient) / R3)] *)
Definition upd_T_board (cfg : Config) (q2 : F) (s : Temps) : result Temps :=
  k <- pydiv (dt cfg) (C_amb cfg) ;;
  q3 <- pydiv (T_board s - T_ambient cfg) (R3 cfg) ;;
  Ok (set_T_board (T_board s + k * (q2 - q3)) s).

(** The three heat flows [q1], [q2], [q4], then the four updates in
    program order. *)
Definition thermal_update (cfg : Config) (power_total : F) (s0 : Temps)
  : result Temps :=
  q1 <- pydiv (T_cpu s0 - T_soc s0) (R1 cfg) ;;
  q2 <- pydiv (T_soc s0 - T_board s0) (R2 cfg) ;;
  q4 <- pydiv (T_soc s0 - T_pkg s0) (R4 cfg) ;;
  s1 <- upd_T_cpu cfg power_total q1 s0 ;;
  s2 <- upd_T_soc cfg q1 q2 q4 s1 ;;
  s3 <- upd_T_pkg cfg q4 s2 ;;
  upd_T_board cfg q2 s3.

(** ** Free-running simulation (lines 34-53) *)

Record FreeState : Type := {
  free_temps : Temps;
  free_T_cpu_hist : list F
}.

Definition free_init (cfg : Config) : FreeState :=
  {| free_temps := init_temps cfg; free_T_cpu_hist := [] |}.

(** Lines 39-40. *)
Definition free_power (cfg : Config) (a : F) : F :=
  let pdyn := a * f_nom cfg in
  pdyn + pleak_nom cfg.

Definition free_iter (cfg : Config) (i : nat) (st : FreeState)
  : result FreeState :=
  a <- getitem (cdyn_trace cfg) (Z.of_nat i) ;;
  let power_total := free_power cfg a in
  s <- thermal_update cfg power_total (free_temps st) ;;
  Ok {| free_temps := s;
        free_T_cpu_hist := free_T_cpu_hist st ++ [T_cpu s] |}.

(** The locals after the first [k] iterations. *)
Definition free_run (cfg : Config) (k : nat) : result FreeState :=
  for_range (free_iter cfg) (seq 0 k) (free_init cfg).

Definition simulate_free_running (cfg : Config) : result (list F) :=
  st <- free_run cfg (length (time cfg)) ;;
  Ok (free_T_cpu_hist st).

(** ** DVFS-controlled simulation (lines 57-89) *)

(** Lines 65-68: the index after the hysteresis rule, given the core
    temperature left by the previous iteration. *)
Definition dvfs_select (cfg : Config) (T : F) (voltage_index : Z) : Z :=
  if (T >? dvfs_temp_limit cfg)
     && (voltage_index <? Z.of_nat (length (voltages cfg)) - 1)%Z
  then (voltage_index + 1)%Z
  else if (T <? dvfs_hysteresis cfg) && (voltage_index >? 0)%Z
  then (voltage_index - 1)%Z
  else voltage_index.

(** Lines 71-74, for the selected voltage [volt] and the sample [a]. *)
Definition dvfs_freq (cfg : Config) (volt : F) : F :=
  f_nom cfg * (volt / v_nom cfg).

Definition dvfs_power (cfg : Config) (a volt : F) : F :=
  let freq := dvfs_freq cfg volt in
  let pdyn := a * freq * nsqr (volt / v_nom cfg) in
  pdyn + pleak_nom cfg.

Record DvfsState : Type := {
  temps : Temps;
  voltage_index : Z;
  T_cpu_hist : list F;
  freq_hist : list F;
  volt_hist : list F
}.

(** [voltage_index = 0  # Start at highest voltage] *)
Definition dvfs_init (cfg : Config) : DvfsState :=
  {| temps := init_temps cfg; voltage_index := 0%Z;
     T_cpu_hist := []; freq_hist := []; volt_hist := [] |}.

Definition dvfs_iter (cfg : Config) (i : nat) (st : DvfsState)
  : result DvfsState :=
  let idx := dvfs_select cfg (T_cpu (temps st)) (voltage_index st) in
  volt <- getitem (voltages cfg) idx ;;
  let freq := dvfs_freq cfg volt in
  a <- getitem (cdyn_trace cfg) (Z.of_nat i) ;;
  let power_total := dvfs_power cfg a volt in
  s <- thermal_update cfg power_total (temps st) ;;
  Ok {| temps := s; voltage_index := idx;
        T_cpu_hist := T_cpu_hist st ++ [T_cpu s];
        freq_hist := freq_hist st ++ [freq];
        volt_hist := volt_hist st ++ [volt] |}.

Definition dvfs_run (cfg : Config) (k : nat) : result DvfsState :=
  for_range (dvfs_iter cfg) (seq 0 k) (dvfs_init cfg).

Definition simulate_dvfs_strict (cfg : Config)
  : result (list F * list F * list F) :=
  st <- dvfs_run cfg (length (time cfg)) ;;
  Ok (T_cpu_hist st, freq_hist st, volt_hist st).

(** Lines 93-94: the script runs the free-running simulation to the end,
    then the controlled one. *)
Definition run_both (cfg : Config)
  : result (list F * (list F * list F * list F)) :=
  T_free <- simulate_free_running cfg ;;
  r <- simulate_dvfs_strict cfg ;;
  Ok (T_free, r).

End Model.

Arguments Config F : clear implicits.
Arguments Temps F : clear implicits.
Arguments FreeState F : clear implicits.
Arguments DvfsState F : clear implicits.

(** ** Binary64: the arithmetic the script runs on *)

#[local] Set Warnings "-inexact-float".

(** [x ** 2] on a numpy scalar is C's [pow (x, 2.0)]; it is modelled by
    the correctly rounded product [x * x].  The two are the same number
    on every value the script squares, the ratios [volt / v_nom] of the
    five catalog voltages ([1.0] among them); on other arguments [pow]
    may differ from the product in the last bit ([0.64 / 0.69] is such a
    ratio).  So [nsqr] stands for line 73 at the voltages of the catalog
    only, and what is stated below of the controlled power is stated of
    the voltage an iteration has read from the catalog, never of an
    arbitrary one. *)
#[export] Instance float_Num : Num float := {|
  nadd := PrimFloat.add;
  nsub := PrimFloat.sub;
  nmul := PrimFloat.mul;
  ndiv := PrimFloat.div;
  nsqr := fun x => PrimFloat.mul x x;
  nltb := PrimFloat.ltb;
  nleb := PrimFloat.leb;
  nis_zero := fun x => PrimFloat.eqb x 0%float;
  nzero := 0%float
|}.

(** [np.arange(0, duration, dt)] with [duration = 10] and [dt = 0.01]:
    the 1000 points [i * dt]. *)
Definition default_time : list float :=
  map (fun i => PrimFloat.mul (PrimFloat.of_uint63 (Uint63.of_Z (Z.of_nat i)))
                              0.01%float)
      (seq 0 1000).

(** The module constants of the script, around a workload [trace] (the
    script draws it from [np.random.uniform(0.1, 1.0, len(time))]). *)
Definition default_config (trace : list float) : Config float := {|
  dt := 0.01%float;
  time := default_time;
  R1 := 100.0%float; C_cpu := 0.01%float;
  R2 := 300.0%float; C_board := 3.0%float;
  R3 := 60.0%float; C_amb := 10000.0%float;
  R4 := 30.0%float; C_pkg := 5.0%float;
  R5 := 30.0%float;
  T_ambient := 25.0%float;
  v_nom := 0.75%float;
  f_nom := 2.0%float;
  pleak_nom := 0.1%float;
  dvfs_temp_limit := 85.0%float;
  dvfs_hysteresis := 80.0%float;
  voltages := [0.75; 0.70; 0.65; 0.60; 0.55]%float;
  cdyn_trace := trace
|}.


(** ** Reference definitions the program is compared with *)

Section Reference.

Context {F : Type} {num : Num F}.
Local Open Scope num_scope.

(** The indices the controller goes through, started at [idx], on a
    sequence [obs] of observed core temperatures: one evaluation of lines
    65-68 per observation. *)
Fixpoint index_trajectory (cfg : Config F) (idx : Z) (obs : list F)
  : list Z :=
  match obs with
  | [] => []
  | T :: obs' =>
      let idx' := dvfs_select cfg T idx in
      idx' :: index_trajectory cfg idx' obs'
  end.

(** A list of indices in which no element is below its predecessor,
    [prev] being the one before the head. *)
Fixpoint never_decremented (prev : Z) (l : list Z) : Prop :=
  match l with
  | [] => True
  | i :: l' => (prev <= i)%Z /\ never_decremented i l'
  end.

(** The power model in the specification's words: activity sample times
    frequency times the square of the voltage ratio, plus leakage. *)
Definition power_model (a f r pleak : F) : F :=
  a * f * nsqr r + pleak.

(** The integrator in the specification's words: every node advanced from
    one snapshot [s] of the temperatures at the start of the step. *)
Definition snapshot_update (cfg : Config F) (power_total : F) (s : Temps F)
  : result (Temps F) :=
  q1 <- pydiv (T_cpu s - T_soc s) (R1 cfg) ;;
  q2 <- pydiv (T_soc s - T_board s) (R2 cfg) ;;
  q4 <- pydiv (T_soc s - T_pkg s) (R4 cfg) ;;
  k_cpu <- pydiv (dt cfg) (C_cpu cfg) ;;
  k_soc <- pydiv (dt cfg) (C_board cfg) ;;
  k_pkg <- pydiv (dt cfg) (C_pkg cfg) ;;
  q5 <- pydiv (T_pkg s - T_ambient cfg) (R5 cfg) ;;
  k_board <- pydiv (dt cfg) (C_amb cfg) ;;
  q3 <- pydiv (T_board s - T_ambient cfg) (R3 cfg) ;;
  Ok {| T_cpu := T_cpu s + k_cpu * (power_total - q1);
        T_soc := T_soc s + k_soc * (q1 - q2 - q4);
        T_board := T_board s + k_board * (q2 - q3);
        T_pkg := T_pkg s + k_pkg * (q4 - q5) |}.

(** The catalog is strictly decreasing: every entry is below the one
    before it. *)
Fixpoint strictly_decreasing (l : list F) : bool :=
  match l with
  | x :: (y :: _) as l' => (y <? x) && strictly_decreasing l'
  | _ => true
  end.

(** The configuration checks of the specification's error taxonomy:
    positive step, non-empty grid (positive duration), positive
    capacitances and resistances, a non-empty strictly decreasing catalog,
    lower threshold below the upper one, one workload sample per grid
    point. *)
Definition well_formed (cfg : Config F) : bool :=
  (nzero <? dt cfg)
  && negb (Nat.eqb (length (time cfg)) 0)
  && (nzero <? C_cpu cfg) && (nzero <? C_board cfg)
  && (nzero <? C_amb cfg) && (nzero <? C_pkg cfg)
  && (nzero <? R1 cfg) && (nzero <? R2 cfg) && (nzero <? R3 cfg)
  && (nzero <? R4 cfg) && (nzero <? R5 cfg)
  && negb (Nat.eqb (length (voltages cfg)) 0)
  && strictly_decreasing (voltages cfg)
  && (dvfs_hysteresis cfg <? dvfs_temp_limit cfg)
  && Nat.eqb (length (cdyn_trace cfg)) (length (time cfg)).

(** What the run needs in order not to raise: something to index in the
    catalog, a sample for every grid point, no zero divisor. *)
Definition runnable (cfg : Config F) : bool :=
  negb (Nat.eqb (length (voltages cfg)) 0)
  && Nat.leb (length (time cfg)) (length (cdyn_trace cfg))
  && negb (nis_zero (R1 cfg)) && negb (nis_zero (R2 cfg))
  && negb (nis_zero (R3 cfg)) && negb (nis_zero (R4 cfg))
  && negb (nis_zero (R5 cfg))
  && negb (nis_zero (C_cpu cfg)) && negb (nis_zero (C_board cfg))
  && negb (nis_zero (C_amb cfg)) && negb (nis_zero (C_pkg cfg)).

(** "Every malformed configuration makes the program raise." *)
Definition rejects_malformed : Prop :=
  forall cfg : Config F,
    well_formed cfg = false -> exists e, run_both cfg = Raise e.

(** The observed core temperature never exceeds the upper threshold in
    the first [n] iterations of the controlled run. *)
Definition never_exceeds (cfg : Config F) (n : nat) : Prop :=
  forall k st, (k < n)%nat -> dvfs_run cfg k = Ok st ->
    (T_cpu (temps st) >? dvfs_temp_limit cfg) = false.

(** The same, as a check that evaluates along one run: the observation
    of each iteration of [rng], then the iteration. *)
Fixpoint never_exceeds_from (cfg : Config F) (rng : list nat)
         (st : DvfsState F) : bool :=
  match rng with
  | [] => true
  | i :: rng' =>
      negb (T_cpu (temps st) >? dvfs_temp_limit cfg)
      && match dvfs_iter cfg i st with
         | Ok st' => never_exceeds_from cfg rng' st'
         | Raise _ => true
         end
  end.

Definition never_exceeds_check (cfg : Config F) (n : nat) : bool :=
  never_exceeds_from cfg (seq 0 n) (dvfs_init cfg).

(** "Whenever the core is above the upper threshold after a step, the
    next step runs at a strictly greater index." *)
Definition always_steps_down (cfg : Config F) : Prop :=
  forall k st st',
    dvfs_run cfg k = Ok st -> dvfs_run cfg (S k) = Ok st' ->
    (T_cpu (temps st) >? dvfs_temp_limit cfg) = true ->
    (voltage_index st < voltage_index st')%Z.

End Reference.

(** The facts about the order that the thresholds need: [x <= y]
    excludes [y < x], and [<] is transitive and asymmetric.  They hold in
    binary64 ([float_NumOrder] below), NaN included, since every
    comparison with NaN is false. *)
Class NumOrder (F : Type) {num : Num F} : Prop := {
  nleb_nltb : forall x y : F, (x <=? y)%num = true -> (y <? x)%num = false;
  nltb_trans : forall x y z : F,
      (x <? y)%num = true -> (y <? z)%num = true -> (x <? z)%num = true;
  nltb_asym : forall x y : F, (x <? y)%num = true -> (y <? x)%num = false
}.

Arguments NumOrder F {num}.

(** ** The order of binary64

    [SFcompare] is the lexicographic comparison of a key: the class
    (infinities, finite numbers by sign, zeros), then the exponent, then
    the mantissa, the last two negated for negative numbers.  NaN has no
    key and compares with nothing. *)

Definition SFkey (x : spec_float) : option (Z * Z * Z) :=
  match x with
  | S754_nan => None
  | S754_infinity s => Some (if s then (-2, 0, 0) else (2, 0, 0))%Z
  | S754_zero _ => Some (0, 0, 0)%Z
  | S754_finite s m e =>
      Some (if s then (-1, - e, Zneg m) else (1, e, Zpos m))%Z
  end.

Definition lex3 (a b : Z * Z * Z) : comparison :=
  let '(a1, a2, a3) := a in
  let '(b1, b2, b3) := b in
  match (a1 ?= b1)%Z with
  | Eq => match (a2 ?= b2)%Z with
          | Eq => (a3 ?= b3)%Z
          | c => c
          end
  | c => c
  end.

Definition key_compare (a b : option (Z * Z * Z)) : option comparison :=
  match a, b with
  | Some a, Some b => Some (lex3 a b)
  | _, _ => None
  end.

(** A float that is not below zero: a zero of either sign, a positive
    finite number or plus infinity. *)
Definition SFnonneg (x : spec_float) : bool :=
  match x with
  | S754_zero _ => true
  | S754_infinity s => negb s
  | S754_finite s _ _ => negb s
  | S754_nan => false
  end.

(** ** Workloads and configurations the statements are evaluated on *)

(** A steady workload of 0.875 W/GHz, inside the range the script draws
    its samples from. *)
Definition sustained_load : list float := repeat 0.875%float 1000.

(** The same load, eased to 0.125 W/GHz for ten steps once the controller
    has reached the last index, then resumed: the core dips into the band
    between the thresholds and crosses 85 again. *)
Definition recrossing_load : list float :=
  (repeat 0.875 44 ++ repeat 0.125 10 ++ repeat 0.875 946)%float.

(** A light workload of 0.125 W/GHz, under which the core stays below 85. *)
Definition light_load : list float := repeat 0.125%float 1000.

(** The two loops are in step: same exception, or same temperatures and
    same recorded core temperatures with the controller at index 0. *)
Definition in_step (rd : result (DvfsState float))
           (rf : result (FreeState float)) : Prop :=
  match rd, rf with
  | Ok sd, Ok sf =>
      temps sd = free_temps sf
      /\ T_cpu_hist sd = free_T_cpu_hist sf
      /\ voltage_index sd = 0%Z
  | Raise e1, Raise e2 => e1 = e2
  | _, _ => False
  end.

(** The script's constants with the thresholds exchanged (lower 85, upper
    80) and the catalog out of order. *)
Definition inverted_config : Config float := {|
  dt := 0.01%float;
  time := default_time;
  R1 := 100.0%float; C_cpu := 0.01%float;
  R2 := 300.0%float; C_board := 3.0%float;
  R3 := 60.0%float; C_amb := 10000.0%float;
  R4 := 30.0%float; C_pkg := 5.0%float;
  R5 := 30.0%float;
  T_ambient := 25.0%float;
  v_nom := 0.75%float;
  f_nom := 2.0%float;
  pleak_nom := 0.1%float;
  dvfs_temp_limit := 80.0%float;
  dvfs_hysteresis := 85.0%float;
  voltages := [0.55; 0.75; 0.60; 0.70; 0.65]%float;
  cdyn_trace := sustained_load
|}.

(** ** Settings the further properties are stated with *)

Section Settings.

Context {F : Type} {num : Num F}.

(** The divisors of one iteration, in the order lines 42-49 (and 76-83)
    evaluate them. *)
Definition divisors (cfg : Config F) : list F :=
  [R1 cfg; R2 cfg; R4 cfg; C_cpu cfg; C_board cfg; C_pkg cfg; R5 cfg;
   C_amb cfg; R3 cfg].

Definition no_zero_divisor (cfg : Config F) : bool :=
  forallb (fun x => negb (nis_zero x)) (divisors cfg).

(** Two configurations with the same thermal network and power constants:
    all that lines 39-49 read besides the grid and the workload. *)
Definition same_network (c1 c2 : Config F) : Prop :=
  dt c1 = dt c2
  /\ R1 c1 = R1 c2 /\ R2 c1 = R2 c2 /\ R3 c1 = R3 c2
  /\ R4 c1 = R4 c2 /\ R5 c1 = R5 c2
  /\ C_cpu c1 = C_cpu c2 /\ C_board c1 = C_board c2
  /\ C_amb c1 = C_amb c2 /\ C_pkg c1 = C_pkg c2
  /\ T_ambient c1 = T_ambient c2
  /\ f_nom c1 = f_nom c2 /\ pleak_nom c1 = pleak_nom c2.

(** The same controller settings: what lines 65-73 read in addition. *)
Definition same_controller (c1 c2 : Config F) : Prop :=
  v_nom c1 = v_nom c2
  /\ dvfs_temp_limit c1 = dvfs_temp_limit c2
  /\ dvfs_hysteresis c1 = dvfs_hysteresis c2
  /\ voltages c1 = voltages c2.

(** The same workload as far as a grid of [n] points reaches. *)
Definition same_workload (n : nat) (c1 c2 : Config F) : Prop :=
  firstn n (cdyn_trace c1) = firstn n (cdyn_trace c2).

(** [cfg] with another catalog, another grid, another [R1]. *)
Definition with_voltages (v : list F) (cfg : Config F) : Config F := {|
  dt := dt cfg; time := time cfg;
  R1 := R1 cfg; C_cpu := C_cpu cfg; R2 := R2 cfg; C_board := C_board cfg;
  R3 := R3 cfg; C_amb := C_amb cfg; R4 := R4 cfg; C_pkg := C_pkg cfg;
  R5 := R5 cfg; T_ambient := T_ambient cfg; v_nom := v_nom cfg;
  f_nom := f_nom cfg; pleak_nom := pleak_nom cfg;
  dvfs_temp_limit := dvfs_temp_limit cfg;
  dvfs_hysteresis := dvfs_hysteresis cfg;
  voltages := v; cdyn_trace := cdyn_trace cfg
|}.

Definition with_time (t : list F) (cfg : Config F) : Config F := {|
  dt := dt cfg; time := t;
  R1 := R1 cfg; C_cpu := C_cpu cfg; R2 := R2 cfg; C_board := C_board cfg;
  R3 := R3 cfg; C_amb := C_amb cfg; R4 := R4 cfg; C_pkg := C_pkg cfg;
  R5 := R5 cfg; T_ambient := T_ambient cfg; v_nom := v_nom cfg;
  f_nom := f_nom cfg; pleak_nom := pleak_nom cfg;
  dvfs_temp_limit := dvfs_temp_limit cfg;
  dvfs_hysteresis := dvfs_hysteresis cfg;
  voltages := voltages cfg; cdyn_trace := cdyn_trace cfg
|}.

Definition with_R1 (r : F) (cfg : Config F) : Config F := {|
  dt := dt cfg; time := time cfg;
  R1 := r; C_cpu := C_cpu cfg; R2 := R2 cfg; C_board := C_board cfg;
  R3 := R3 cfg; C_amb := C_amb cfg; R4 := R4 cfg; C_pkg := C_pkg cfg;
  R5 := R5 cfg; T_ambient := T_ambient cfg; v_nom := v_nom cfg;
  f_nom := f_nom cfg; pleak_nom := pleak_nom cfg;
  dvfs_temp_limit := dvfs_temp_limit cfg;
  dvfs_hysteresis := dvfs_hysteresis cfg;
  voltages := voltages cfg; cdyn_trace := cdyn_trace cfg
|}.

End Settings.

(** Configurations the further properties are evaluated on: the script's
    constants without a catalog, with ten samples only, with [R1 = 0],
    with another grid of the same length and a sample too many, and with
    a first sample that is not a number. *)
Definition empty_catalog_config : Config float :=
  with_voltages [] (default_config sustained_load).

Definition short_workload_config : Config float :=
  default_config (repeat 0.875%float 10).

Definition zero_R1_config : Config float :=
  with_R1 0%float (default_config sustained_load).

Definition other_grid_config : Config float :=
  with_time (repeat 0%float 1000)
            (default_config (sustained_load ++ [9.0%float])).

Definition poisoned_config : Config float :=
  default_config (nan :: repeat 0.875%float 999).

(** * Properties *)

(** ** The error monad and the loop *)

Lemma bind_Ok {A B : Type} (c : result A) (k : A -> result B) (b : B) :
  bind c k = Ok b -> exists a, c = Ok a /\ k a = Ok b.
Proof.
  destruct c as [a|e]; simpl; intros H; [eauto | discriminate].
Qed.

Lemma for_range_app {St : Type} (body : nat -> St -> result St)
      (l1 l2 : list nat) (st : St) :
  for_range body (l1 ++ l2) st
  = bind (for_range body l1 st) (for_range body l2).
Proof.
  revert st; induction l1 as [|i l1 IH]; intros st; simpl; [reflexivity|].
  destruct (body i st) as [st'|e]; simpl; [apply IH | reflexivity].
Qed.

Lemma for_range_snoc {St : Type} (body : nat -> St -> result St)
      (k : nat) (st : St) :
  for_range body (seq 0 (S k)) st
  = bind (for_range body (seq 0 k) st) (body k).
Proof.
  rewrite seq_S, for_range_app; simpl.
  destruct (for_range body (seq 0 k) st) as [st'|e]; simpl; [|reflexivity].
  destruct (body k st'); reflexivity.
Qed.

Lemma getitem_Ok_In {A : Type} (l : list A) (i : Z) (x : A) :
  getitem l i = Ok x -> In x l.
Proof.
  unfold getitem. destruct (_ && _); [|discriminate].
  destruct (nth_error l _) eqn:E; [|discriminate].
  intros H; injection H as <-. eapply nth_error_In; eauto.
Qed.

Lemma getitem_in_range {A : Type} (l : list A) (i : Z) :
  (0 <= i < Z.of_nat (length l))%Z -> exists x, getitem l i = Ok x.
Proof.
  intros Hi. unfold getitem.
  destruct (Z.ltb_spec i 0); [lia|].
  destruct (Z.leb_spec 0 i); [|lia].
  destruct (Z.ltb_spec i (Z.of_nat (length l))); [|lia]. simpl.
  destruct (nth_error l (Z.to_nat i)) eqn:E; [eauto|].
  apply nth_error_None in E. lia.
Qed.

(** ** The order of binary64, continued *)

Lemma SFcompare_key (x y : spec_float) :
  SFcompare x y = key_compare (SFkey x) (SFkey y).
Proof.
  destruct x as [s1|s1| |s1 m1 e1], y as [s2|s2| |s2 m2 e2];
    try destruct s1; try destruct s2; try reflexivity.
  cbn [SFcompare SFkey key_compare lex3]. rewrite Z.compare_opp.
  rewrite (Z.compare_antisym e1 e2).
  cbn [Z.compare]. destruct (e1 ?= e2)%Z; reflexivity.
Qed.

Ltac lex3_cases :=
  unfold lex3;
  repeat match goal with
         | p : (Z * Z * Z)%type |- _ => destruct p as [[? ?] ?]
         end;
  repeat match goal with
         | |- context [(?a ?= ?b)%Z] => destruct (Z.compare_spec a b)
         | H : context [(?a ?= ?b)%Z] |- _ => destruct (Z.compare_spec a b)
         end;
  try congruence; try lia.

Lemma lex3_trans (a b c : Z * Z * Z) :
  lex3 a b = Lt -> lex3 b c = Lt -> lex3 a c = Lt.
Proof. lex3_cases. Qed.

Lemma lex3_le_not_gt (a b : Z * Z * Z) :
  lex3 a b <> Gt -> lex3 b a <> Lt.
Proof. lex3_cases. Qed.

Lemma float_ltb_key (x y : float) :
  (x <? y)%float = true <->
  exists a b, SFkey (Prim2SF x) = Some a /\ SFkey (Prim2SF y) = Some b
              /\ lex3 a b = Lt.
Proof.
  rewrite ltb_spec. unfold SFltb. rewrite SFcompare_key.
  destruct (SFkey (Prim2SF x)) as [a|], (SFkey (Prim2SF y)) as [b|];
    cbn [key_compare]; split;
    try (intros (? & ? & ? & ? & ?); discriminate); try discriminate.
  - destruct (lex3 a b) eqn:E; try discriminate. eauto.
  - intros (a' & b' & Ha & Hb & H). injection Ha as <-. injection Hb as <-.
    rewrite H. reflexivity.
Qed.

Lemma float_leb_key (x y : float) :
  (x <=? y)%float = true <->
  exists a b, SFkey (Prim2SF x) = Some a /\ SFkey (Prim2SF y) = Some b
              /\ lex3 a b <> Gt.
Proof.
  rewrite leb_spec. unfold SFleb. rewrite SFcompare_key.
  destruct (SFkey (Prim2SF x)) as [a|], (SFkey (Prim2SF y)) as [b|];
    cbn [key_compare]; split;
    try (intros (? & ? & ? & ? & ?); discriminate); try discriminate.
  - destruct (lex3 a b) eqn:E; try discriminate;
      intros _; exists a, b; repeat split; congruence.
  - intros (a' & b' & Ha & Hb & H). injection Ha as <-. injection Hb as <-.
    destruct (lex3 a b); congruence.
Qed.

Lemma float_leb_ltb (x y : float) :
  (x <=? y)%float = true -> (y <? x)%float = false.
Proof.
  intros H. apply float_leb_key in H as (a & b & Ha & Hb & H).
  destruct (y <? x)%float eqn:E; [|reflexivity].
  apply float_ltb_key in E as (b' & a' & Hb' & Ha' & E).
  rewrite Ha in Ha'; injection Ha' as <-.
  rewrite Hb in Hb'; injection Hb' as <-.
  exfalso. exact (lex3_le_not_gt _ _ H E).
Qed.

Lemma float_ltb_trans (x y z : float) :
  (x <? y)%float = true -> (y <? z)%float = true -> (x <? z)%float = true.
Proof.
  intros H1 H2.
  apply float_ltb_key in H1 as (a & b & Ha & Hb & H1).
  apply float_ltb_key in H2 as (b' & c & Hb' & Hc & H2).
  rewrite Hb in Hb'; injection Hb' as <-.
  apply float_ltb_key. exists a, c. eauto using lex3_trans.
Qed.

Lemma float_ltb_asym (x y : float) :
  (x <? y)%float = true -> (y <? x)%float = false.
Proof.
  intros H. apply float_leb_ltb.
  apply float_ltb_key in H as (a & b & Ha & Hb & H).
  apply float_leb_key. exists a, b. repeat split; congruence.
Qed.

#[export] Instance float_NumOrder : NumOrder float.
Proof.
  constructor.
  - exact float_leb_ltb.
  - exact float_ltb_trans.
  - exact float_ltb_asym.
Qed.

Lemma float_eqb_key (x y : float) :
  (x =? y)%float = true <->
  exists a b, SFkey (Prim2SF x) = Some a /\ SFkey (Prim2SF y) = Some b
              /\ lex3 a b = Eq.
Proof.
  rewrite eqb_spec. unfold SFeqb. rewrite SFcompare_key.
  destruct (SFkey (Prim2SF x)) as [a|], (SFkey (Prim2SF y)) as [b|];
    cbn [key_compare]; split;
    try (intros (? & ? & ? & ? & ?); discriminate); try discriminate.
  - destruct (lex3 a b) eqn:E; try discriminate. eauto.
  - intros (a' & b' & Ha & Hb & H). injection Ha as <-. injection Hb as <-.
    rewrite H. reflexivity.
Qed.

Lemma lex3_lt_not_eq (a b : Z * Z * Z) : lex3 a b = Lt -> lex3 b a <> Eq.
Proof. lex3_cases. Qed.

(** A positive float is not zero. *)
Lemma float_pos_not_zero (x : float) :
  (nzero <? x)%num = true -> nis_zero x = false.
Proof.
  cbn [nzero nltb nis_zero float_Num]. intros H.
  apply float_ltb_key in H as (a & b & Ha & Hb & H).
  destruct (x =? 0)%float eqn:E; [|reflexivity].
  apply float_eqb_key in E as (b' & a' & Hb' & Ha' & E).
  rewrite Ha in Ha'; injection Ha' as <-.
  rewrite Hb in Hb'; injection Hb' as <-.
  exfalso. exact (lex3_lt_not_eq _ _ H E).
Qed.

(** ** Binary64 arithmetic

    Facts about the rounded operations, from their specification in
    [SpecFloat]: a right shift is a floor division, the number of digits
    brackets the mantissa between two powers of two, and from these: a
    product with 1.0 is exact, a product of non-negative numbers is not
    negative, and adding a non-negative number to a positive one does not
    round below it. *)

Section Binary64.

Local Open Scope Z_scope.

(** One right shift halves a non-negative mantissa. *)
Lemma shr_1_m (r : shr_record) :
  0 <= shr_m r -> shr_m (shr_1 r) = shr_m r / 2.
Proof.
  destruct r as [m r s]. cbn [shr_m shr_1]. intros Hm.
  destruct m as [|[p|p|]|p]; cbn [shr_m]; try lia; try reflexivity.
  - rewrite Pos2Z.inj_xI. apply (Z.div_unique _ 2 _ 1); lia.
  - rewrite Pos2Z.inj_xO. apply (Z.div_unique _ 2 _ 0); lia.
Qed.

Lemma pow2_xO (p : positive) :
  2 ^ Zpos p~0 = 2 ^ Zpos p * 2 ^ Zpos p.
Proof.
  replace (Z.pos p~0) with (Z.pos p + Z.pos p) by lia.
  apply Z.pow_add_r; lia.
Qed.

Lemma pow2_xI (p : positive) :
  2 ^ Zpos p~1 = 2 * (2 ^ Zpos p * 2 ^ Zpos p).
Proof.
  replace (Z.pos p~1) with (1 + (Z.pos p + Z.pos p)) by lia.
  rewrite !Z.pow_add_r, Z.pow_1_r by lia. reflexivity.
Qed.

Lemma iter_shr_1_m (p : positive) :
  forall r : shr_record,
    0 <= shr_m r -> shr_m (iter_pos shr_1 p r) = shr_m r / 2 ^ Zpos p.
Proof.
  induction p as [p IH|p IH|]; intros r Hr; cbn [iter_pos].
  - assert (H1 : 0 <= shr_m (shr_1 r))
      by (rewrite shr_1_m by exact Hr; apply Z.div_pos; lia).
    assert (H2 : 0 <= shr_m (iter_pos shr_1 p (shr_1 r)))
      by (rewrite IH by exact H1; apply Z.div_pos; lia).
    rewrite IH, IH, shr_1_m by assumption.
    rewrite !Z.div_div by lia. rewrite pow2_xI. reflexivity.
  - assert (H1 : 0 <= shr_m (iter_pos shr_1 p r))
      by (rewrite IH by exact Hr; apply Z.div_pos; lia).
    rewrite IH, IH by assumption.
    rewrite !Z.div_div by lia. rewrite pow2_xO. reflexivity.
  - rewrite shr_1_m by exact Hr. reflexivity.
Qed.

(** [shr] on a non-negative mantissa: a floor division and the matching
    exponent. *)
Lemma shr_spec (m : Z) (l : location) (e n : Z) :
  0 <= m ->
  shr_m (fst (shr (shr_record_of_loc m l) e n)) = m / 2 ^ Z.max n 0
  /\ snd (shr (shr_record_of_loc m l) e n) = e + Z.max n 0.
Proof.
  intros Hm.
  assert (Hrec : shr_m (shr_record_of_loc m l) = m)
    by (destruct l as [|[]]; reflexivity).
  destruct n as [|p|p]; cbn [shr fst snd].
  - rewrite Hrec. cbn. rewrite Z.div_1_r. lia.
  - rewrite iter_shr_1_m by lia. rewrite Hrec.
    replace (Z.max (Z.pos p) 0) with (Z.pos p) by lia. auto.
  - rewrite Hrec. replace (Z.max (Z.neg p) 0) with 0 by lia.
    cbn. rewrite Z.div_1_r. lia.
Qed.

Lemma digits2_pos_bounds (m : positive) :
  2 ^ (Zpos (digits2_pos m) - 1) <= Zpos m < 2 ^ Zpos (digits2_pos m).
Proof.
  induction m as [m IH|m IH|]; cbn [digits2_pos].
  - rewrite Pos2Z.inj_succ.
    replace (Z.succ (Z.pos (digits2_pos m)) - 1)
      with (Z.succ (Z.pos (digits2_pos m) - 1)) by lia.
    rewrite !Z.pow_succ_r by lia.
    set (lo := 2 ^ (Z.pos (digits2_pos m) - 1)) in *.
    set (hi := 2 ^ Z.pos (digits2_pos m)) in *. clearbody lo hi. lia.
  - rewrite Pos2Z.inj_succ.
    replace (Z.succ (Z.pos (digits2_pos m)) - 1)
      with (Z.succ (Z.pos (digits2_pos m) - 1)) by lia.
    rewrite !Z.pow_succ_r by lia.
    set (lo := 2 ^ (Z.pos (digits2_pos m) - 1)) in *.
    set (hi := 2 ^ Z.pos (digits2_pos m)) in *. clearbody lo hi. lia.
  - cbn. lia.
Qed.

Lemma round_nearest_even_ge (m : Z) (l : location) :
  m <= round_nearest_even m l <= m + 1.
Proof.
  destruct l as [|[]]; cbn [round_nearest_even]; try lia.
  destruct (Z.even m); lia.
Qed.

Lemma Zpos_iter_xO (m d : positive) :
  Zpos (Pos.iter xO m d) = Zpos m * 2 ^ Zpos d.
Proof.
  induction d as [|d IH] using Pos.peano_ind.
  - cbn [Pos.iter]. rewrite Pos2Z.inj_xO. lia.
  - rewrite Pos.iter_succ, Pos2Z.inj_xO, IH, Pos2Z.inj_succ,
      Z.pow_succ_r by lia. lia.
Qed.

Lemma shl_align_value (m : positive) (e e' : Z) :
  e' <= e -> Zpos (fst (shl_align m e e')) = Zpos m * 2 ^ (e - e').
Proof.
  intros He. unfold shl_align.
  destruct (e' - e) as [|p|p] eqn:E; cbn [fst]; try lia.
  - replace (e - e') with 0 by lia. lia.
  - rewrite Zpos_iter_xO. f_equal. f_equal. lia.
Qed.

Lemma fexp_eq (x : Z) : fexp prec emax x = Z.max (x - 53) (-1074).
Proof. reflexivity. Qed.

Lemma pow2_le (a b : Z) : 0 <= a <= b -> 2 ^ a <= 2 ^ b.
Proof. intros H. apply Z.pow_le_mono_r; lia. Qed.

Lemma pow2_pos (a : Z) : 0 <= a -> 0 < 2 ^ a.
Proof. intros H. apply Z.pow_pos_nonneg; lia. Qed.

(** The second shift of [binary_round_aux] on a mantissa of [d2] digits at
    an exponent [e'] not below [emin]. *)
Lemma second_shift (d2 e' : Z) :
  -1074 <= e' ->
  Z.max (Z.max (d2 + e' - 53) (-1074) - e') 0 = Z.max (d2 - 53) 0.
Proof. lia. Qed.

Lemma binary_round_aux_ge (mc : positive) (ec M e : Z) (l : location) :
  fexp prec emax (Zpos (digits2_pos mc) + ec) = ec ->
  e <= ec -> Zpos mc * 2 ^ (ec - e) <= M ->
  SFleb (S754_finite false mc ec)
        (binary_round_aux prec emax false M e l) = true.
Proof.
  intros Hc Hle HM.
  pose proof (digits2_pos_bounds mc) as [Hmc1 Hmc2].
  pose proof (pow2_pos (ec - e) ltac:(lia)) as Hpow.
  assert (HMpos : 0 < M).
  { apply Z.lt_le_trans with (Z.pos mc * 2 ^ (ec - e)); [|exact HM].
    apply Z.mul_pos_pos; [reflexivity | exact Hpow]. }
  destruct M as [|pM|pM]; try discriminate HMpos.
  pose proof (digits2_pos_bounds pM) as [HM1 HM2].
  rewrite fexp_eq in Hc.
  unfold binary_round_aux, shr_fexp. cbn [Zdigits2]. rewrite !fexp_eq.
  set (d := Zpos (digits2_pos pM)) in *.
  set (dc := Zpos (digits2_pos mc)) in *.
  assert (Hdpos : 1 <= d) by (subst d; clear; lia).
  assert (Hdcpos : 1 <= dc) by (subst dc; clear; lia).
  assert (Hec : -1074 <= ec) by (clear - Hc; lia).
  assert (Hd : dc + ec <= d + e).
  { assert (H : 2 ^ (dc - 1 + (ec - e)) < 2 ^ d).
    { rewrite Z.pow_add_r by (clear - Hdcpos Hle; lia).
      apply Z.le_lt_trans with (Z.pos pM); [|exact HM2].
      apply Z.le_trans with (Z.pos mc * 2 ^ (ec - e)); [|exact HM].
      apply Z.mul_le_mono_nonneg_r; [apply Z.lt_le_incl, Hpow | exact Hmc1]. }
    apply Z.pow_lt_mono_r_iff in H;
      [clear - H; lia | reflexivity | clear - Hdpos; lia]. }
  set (n1 := Z.max (d + e - 53) (-1074) - e).
  assert (Hn1 : ec - e <= n1) by (subst n1; clear - Hd Hc; lia).
  destruct (shr_spec (Zpos pM) l e n1) as [Hm1 He1]; [discriminate|].
  destruct (shr (shr_record_of_loc (Zpos pM) l) e n1) as [mrs' e'].
  cbn [fst snd] in Hm1, He1.
  replace (Z.max n1 0) with n1 in * by (clear - Hn1 Hle; lia).
  assert (H2n1 : 2 ^ n1 <= Zpos pM).
  { destruct (Z.max_spec (d + e - 53) (-1074)) as [[_ E]|[_ E]].
    - apply Z.le_trans with (2 ^ (ec - e));
        [apply pow2_le; subst n1; clear - E Hec Hn1 Hle; lia|].
      apply Z.le_trans with (Z.pos mc * 2 ^ (ec - e)); [|exact HM].
      rewrite <- (Z.mul_1_l (2 ^ (ec - e))) at 1.
      apply Z.mul_le_mono_nonneg_r; [apply Z.lt_le_incl, Hpow|].
      clear; lia.
    - apply Z.le_trans with (2 ^ (d - 1)); [|exact HM1].
      apply pow2_le. subst n1. clear - E Hn1 Hle. lia. }
  assert (Hn1nn : 0 <= n1) by (clear - Hn1 Hle; lia).
  assert (Hm1pos : 1 <= shr_m mrs').
  { rewrite Hm1. apply Z.div_le_lower_bound; [apply pow2_pos, Hn1nn|].
    rewrite Z.mul_1_r. exact H2n1. }
  pose proof (round_nearest_even_ge (shr_m mrs') (loc_of_shr_record mrs'))
    as Hm2.
  set (m2 := round_nearest_even (shr_m mrs') (loc_of_shr_record mrs')) in *.
  assert (Hm2pos : 1 <= m2) by (clear - Hm1pos Hm2; lia).
  destruct m2 as [|p2|p2] eqn:Em2; try (exfalso; clear - Hm2pos; lia).
  pose proof (digits2_pos_bounds p2) as [Hp21 Hp22].
  cbn [Zdigits2]. rewrite fexp_eq.
  set (d2 := Zpos (digits2_pos p2)) in *.
  assert (Hd2pos : 1 <= d2) by (subst d2; clear; lia).
  assert (He' : ec <= e') by (clear - He1 Hn1; lia).
  destruct (shr_spec (Zpos p2) loc_Exact e'
                     (Z.max (d2 + e' - 53) (-1074) - e')) as [Hm3 He3];
    [discriminate|].
  destruct (shr (shr_record_of_loc (Zpos p2) loc_Exact) e' _) as [mrs'' e''].
  cbn [fst snd] in Hm3, He3.
  rewrite second_shift in Hm3, He3 by (clear - He' Hec; lia).
  assert (Hm3pos : 1 <= shr_m mrs'').
  { rewrite Hm3. apply Z.div_le_lower_bound;
      [apply pow2_pos; clear; lia|].
    rewrite Z.mul_1_r.
    apply Z.le_trans with (2 ^ (d2 - 1)); [|exact Hp21].
    apply pow2_le. clear - Hd2pos. lia. }
  destruct (shr_m mrs'') as [|p3|p3] eqn:Em3;
    try (exfalso; clear - Hm3pos; lia).
  destruct (e'' <=? emax - prec); [|reflexivity].
  unfold SFleb, SFcompare.
  destruct (Z.compare_spec ec e'') as [Heq|Hlt|Hgt];
    [|reflexivity | exfalso; clear - Hgt He3 He'; lia].
  assert (Hd2 : Z.max (d2 - 53) 0 = 0) by (clear - Heq He3 He'; lia).
  assert (Hn1eq : n1 = ec - e) by (clear - Heq He3 He' He1 Hn1; lia).
  rewrite Hd2, Z.pow_0_r, Z.div_1_r in Hm3.
  assert (Hge : Z.pos mc <= shr_m mrs').
  { rewrite Hm1, Hn1eq. apply Z.div_le_lower_bound; [exact Hpow|].
    rewrite Z.mul_comm. exact HM. }
  change (Pos.compare_cont Eq mc p3) with (Pos.compare mc p3).
  destruct (Pos.compare_spec mc p3) as [E|E|E]; try reflexivity.
  exfalso. apply Pos2Z.pos_lt_pos in E. clear - E Hge Hm2 Hm3. lia.
Qed.

Lemma SFleb_zero_nonneg (x : spec_float) :
  SFleb (S754_zero false) x = SFnonneg x.
Proof. destruct x as [s|[]| |[] m e]; reflexivity. Qed.

Lemma shl_align_spec (m : positive) (e e' : Z) :
  snd (shl_align m e e') <= e
  /\ Zpos (fst (shl_align m e e')) = Zpos m * 2 ^ (e - snd (shl_align m e e')).
Proof.
  unfold shl_align.
  destruct (e' - e) as [|p|p] eqn:E; cbn [fst snd].
  - rewrite Z.sub_diag. lia.
  - rewrite Z.sub_diag. lia.
  - split; [lia|]. rewrite Zpos_iter_xO. f_equal. f_equal. lia.
Qed.

Lemma SFleb_refl_finite (m : positive) (e : Z) :
  SFleb (S754_finite false m e) (S754_finite false m e) = true.
Proof.
  unfold SFleb, SFcompare. rewrite Z.compare_refl.
  change (Pos.compare_cont Eq m m) with (Pos.compare m m).
  rewrite Pos.compare_refl. reflexivity.
Qed.

Lemma SFadd_ge_r (y : spec_float) (mc : positive) (ec : Z) :
  valid_binary (S754_finite false mc ec) = true ->
  SFnonneg y = true ->
  SFleb (S754_finite false mc ec) (SF64add y (S754_finite false mc ec)) = true.
Proof.
  intros Hv Hy. cbn [valid_binary] in Hv. unfold bounded in Hv.
  apply andb_prop in Hv as [Hc _]. apply Z.eqb_eq in Hc.
  destruct y as [s|[]| |[] my ey]; try discriminate Hy.
  - apply SFleb_refl_finite.
  - reflexivity.
  - unfold SF64add, SFadd. cbn [cond_Zopp].
    set (ez := Z.min ey ec).
    pose proof (shl_align_value mc ec ez ltac:(lia)) as Hb.
    set (a := fst (shl_align my ey ez)) in *.
    set (b := fst (shl_align mc ec ez)) in *.
    cbn [Z.add binary_normalize]. unfold binary_round.
    pose proof (shl_align_spec (a + b) ez
                  (fexp prec emax (Z.pos (digits2_pos (a + b)) + ez)))
      as [Hs1 Hs2].
    destruct (shl_align (a + b) ez _) as [mz ez']. cbn [fst snd] in Hs1, Hs2.
    apply binary_round_aux_ge; [exact Hc | lia |].
    rewrite Hs2, Pos2Z.inj_add, Hb.
    replace (ec - ez') with ((ec - ez) + (ez - ez')) by lia.
    rewrite Z.pow_add_r by lia.
    assert (0 < 2 ^ (ez - ez')) by (apply Z.pow_pos_nonneg; lia).
    assert (0 < 2 ^ (ec - ez)) by (apply Z.pow_pos_nonneg; lia).
    set (u := 2 ^ (ez - ez')) in *. set (v := 2 ^ (ec - ez)) in *.
    clearbody u v. nia.
Qed.

Lemma binary_round_aux_nonneg (M e : Z) (l : location) :
  0 <= M -> SFnonneg (binary_round_aux prec emax false M e l) = true.
Proof.
  intros HM. unfold binary_round_aux, shr_fexp.
  destruct (shr_spec M l e (fexp prec emax (Zdigits2 M + e) - e) HM)
    as [Hm1 _].
  destruct (shr (shr_record_of_loc M l) e _) as [mrs' e'].
  cbn [fst] in Hm1.
  assert (H1 : 0 <= shr_m mrs')
    by (rewrite Hm1; apply Z.div_pos; [lia | apply Z.pow_pos_nonneg; lia]).
  pose proof (round_nearest_even_ge (shr_m mrs') (loc_of_shr_record mrs'))
    as Hm2.
  set (m2 := round_nearest_even (shr_m mrs') (loc_of_shr_record mrs')) in *.
  destruct (shr_spec m2 loc_Exact e' (fexp prec emax (Zdigits2 m2 + e') - e')
                     ltac:(lia)) as [Hm3 _].
  destruct (shr (shr_record_of_loc m2 loc_Exact) e' _) as [mrs'' e''].
  cbn [fst] in Hm3.
  assert (H3 : 0 <= shr_m mrs'')
    by (rewrite Hm3; apply Z.div_pos; [lia | apply Z.pow_pos_nonneg; lia]).
  destruct (shr_m mrs'') as [|p3|p3]; [reflexivity | | lia].
  destruct (e'' <=? emax - prec); reflexivity.
Qed.

Lemma SFmul_nonneg (x : spec_float) (mc : positive) (ec : Z) :
  SFnonneg x = true ->
  SFnonneg (SF64mul x (S754_finite false mc ec)) = true.
Proof.
  destruct x as [s|[]| |[] mx ex]; intros Hx; try discriminate Hx;
    try reflexivity.
  unfold SF64mul, SFmul. cbn [xorb]. apply binary_round_aux_nonneg. lia.
Qed.

Lemma float_nonneg_spec (x : float) :
  (0 <=? x)%float = SFnonneg (Prim2SF x).
Proof. rewrite leb_spec. apply SFleb_zero_nonneg. Qed.

Lemma float_mul_nonneg (x c : float) (mc : positive) (ec : Z) :
  Prim2SF c = S754_finite false mc ec ->
  (0 <=? x)%float = true -> (0 <=? x * c)%float = true.
Proof.
  rewrite !float_nonneg_spec, mul_spec. intros -> Hx.
  apply SFmul_nonneg, Hx.
Qed.

Lemma float_add_ge_r (y c : float) (mc : positive) (ec : Z) :
  Prim2SF c = S754_finite false mc ec ->
  (0 <=? y)%float = true -> (c <=? y + c)%float = true.
Proof.
  rewrite float_nonneg_spec, leb_spec, add_spec. intros Hc Hy.
  pose proof (Prim2SF_valid c) as Hv. rewrite Hc in *.
  apply SFadd_ge_r; assumption.
Qed.

Lemma Zdigits2_shift52 (m : positive) :
  Zpos (digits2_pos (Pos.mul 4503599627370496 m))
  = (Zpos (digits2_pos m) + 52)%Z.
Proof.
  cbn [Pos.mul digits2_pos]. rewrite !Pos2Z.inj_succ. lia.
Qed.

Lemma SFmul_one_r (x : spec_float) :
  valid_binary x = true ->
  SF64mul x (S754_finite false 4503599627370496 (-52)) = x.
Proof.
  destruct x as [s|s| |s m e]; intros Hv;
    try reflexivity; try (destruct s; reflexivity).
  cbn [valid_binary] in Hv. unfold bounded, canonical_mantissa in Hv.
  apply andb_prop in Hv as [Hc He]. apply Z.eqb_eq in Hc.
  unfold SF64mul, SFmul. rewrite xorb_false_r.
  unfold binary_round_aux.
  unfold shr_fexp at 1. cbn [Zdigits2].
  rewrite (Pos.mul_comm m), Zdigits2_shift52.
  replace (Z.pos (digits2_pos m) + 52 + (e + -52))%Z
    with (Z.pos (digits2_pos m) + e)%Z by lia.
  rewrite Hc.
  replace (e - (e + -52))%Z with 52%Z by lia.
  cbn [shr_record_of_loc shr Pos.mul iter_pos shr_1 orb].
  cbn [shr_m loc_of_shr_record round_nearest_even].
  replace (e + -52 + 52)%Z with e by lia.
  unfold shr_fexp. cbn [Zdigits2]. rewrite Hc, Z.sub_diag.
  cbn [shr shr_record_of_loc shr_m]. rewrite He. reflexivity.
Qed.

Lemma float_mul_1_r (x : float) : (x * 1)%float = x.
Proof.
  apply Prim2SF_inj. rewrite mul_spec.
  change (Prim2SF 1) with (S754_finite false 4503599627370496 (-52)).
  apply SFmul_one_r, Prim2SF_valid.
Qed.

End Binary64.

(** ** The controller *)

Section ControllerFacts.

Context {F : Type} {num : Num F}.
Variable cfg : Config F.
Local Open Scope num_scope.
Local Open Scope Z_scope.

Local Abbreviation N := (Z.of_nat (length (voltages cfg))).

Lemma catalog_length_pos : voltages cfg <> [] -> 1 <= N.
Proof.
  destruct (voltages cfg) as [|v l]; [congruence|].
  intros _. cbn [length]. lia.
Qed.

(** The three branches of lines 65-68, with their guards. *)
Lemma dvfs_select_cases (T : F) (idx : Z) :
  ((T >? dvfs_temp_limit cfg)%num = true /\ idx < N - 1
   /\ dvfs_select cfg T idx = idx + 1)
  \/ ((T <? dvfs_hysteresis cfg)%num = true /\ 0 < idx
      /\ dvfs_select cfg T idx = idx - 1)
  \/ dvfs_select cfg T idx = idx.
Proof.
  unfold dvfs_select.
  destruct (T >? dvfs_temp_limit cfg)%num; simpl.
  - destruct (Z.ltb_spec idx (N - 1)); [left; auto|].
    destruct (T <? dvfs_hysteresis cfg)%num; simpl; [|auto].
    destruct (Z.gtb_spec idx 0); [right; left; auto | auto].
  - destruct (T <? dvfs_hysteresis cfg)%num; simpl; [|auto].
    destruct (Z.gtb_spec idx 0); [right; left; auto | auto].
Qed.

Lemma dvfs_select_in_range (T : F) (idx : Z) :
  0 <= idx <= N - 1 -> 0 <= dvfs_select cfg T idx <= N - 1.
Proof.
  intros H.
  destruct (dvfs_select_cases T idx) as [(_ & ? & ->)|[(_ & ? & ->)| ->]]; lia.
Qed.

Lemma index_trajectory_in_range (obs : list F) (idx : Z) :
  0 <= idx <= N - 1 ->
  Forall (fun i => 0 <= i <= N - 1) (index_trajectory cfg idx obs).
Proof.
  revert idx; induction obs as [|T obs IH]; intros idx H; simpl;
    constructor; auto using dvfs_select_in_range.
Qed.

(** What one iteration of the controlled loop leaves in the locals. *)
Lemma dvfs_iter_Ok (i : nat) (st st' : DvfsState F) :
  dvfs_iter cfg i st = Ok st' ->
  exists volt a,
    let idx := dvfs_select cfg (T_cpu (temps st)) (voltage_index st) in
    getitem (voltages cfg) idx = Ok volt
    /\ getitem (cdyn_trace cfg) (Z.of_nat i) = Ok a
    /\ thermal_update cfg (dvfs_power cfg a volt) (temps st) = Ok (temps st')
    /\ voltage_index st' = idx
    /\ T_cpu_hist st' = T_cpu_hist st ++ [T_cpu (temps st')]
    /\ freq_hist st' = freq_hist st ++ [dvfs_freq cfg volt]
    /\ volt_hist st' = volt_hist st ++ [volt].
Proof.
  unfold dvfs_iter. intros H.
  apply bind_Ok in H as (volt & Hv & H).
  apply bind_Ok in H as (a & Ha & H).
  apply bind_Ok in H as (s & Hs & H).
  injection H as <-. exists volt, a. simpl. auto 10.
Qed.

Lemma dvfs_run_S (k : nat) :
  dvfs_run cfg (S k) = bind (dvfs_run cfg k) (dvfs_iter cfg k).
Proof. apply for_range_snoc. Qed.

Lemma dvfs_run_step (k : nat) (st' : DvfsState F) :
  dvfs_run cfg (S k) = Ok st' ->
  exists st, dvfs_run cfg k = Ok st /\ dvfs_iter cfg k st = Ok st'.
Proof. rewrite dvfs_run_S. apply bind_Ok. Qed.

Lemma dvfs_run_index_step (k : nat) (st st' : DvfsState F) :
  dvfs_run cfg k = Ok st -> dvfs_run cfg (S k) = Ok st' ->
  voltage_index st' = dvfs_select cfg (T_cpu (temps st)) (voltage_index st).
Proof.
  intros Hk HS. apply dvfs_run_step in HS as (st0 & H0 & Hi).
  rewrite Hk in H0; injection H0 as <-.
  apply dvfs_iter_Ok in Hi as (volt & a & _ & _ & _ & Hidx & _). exact Hidx.
Qed.

Lemma dvfs_run_in_range (k : nat) (st : DvfsState F) :
  voltages cfg <> [] -> dvfs_run cfg k = Ok st ->
  0 <= voltage_index st <= N - 1.
Proof.
  intros Hne. pose proof (catalog_length_pos Hne) as HN.
  revert st; induction k as [|k IH]; intros st H.
  - injection H as <-. simpl. lia.
  - pose proof H as HS. apply dvfs_run_step in H as (st0 & H0 & _).
    rewrite (dvfs_run_index_step k st0 st H0 HS).
    apply dvfs_select_in_range; auto.
Qed.

End ControllerFacts.

Section Controller.

Context {F : Type} {num : Num F}.
Local Open Scope num_scope.
Local Open Scope Z_scope.

(** C1.  The operating-point index starts at 0 and, on every finite
    sequence of observed core temperatures, stays within [0, N-1] after
    every transition, [N] being the length of the voltage catalog; so does
    the index of the controlled simulation after any number of its
    iterations. *)
Theorem index_within_catalog (cfg : Config F) :
  voltages cfg <> [] ->
  voltage_index (dvfs_init cfg) = 0
  /\ (forall obs : list F,
        Forall (fun i => 0 <= i <= Z.of_nat (length (voltages cfg)) - 1)
               (index_trajectory cfg 0 obs))
  /\ (forall k st, dvfs_run cfg k = Ok st ->
        0 <= voltage_index st <= Z.of_nat (length (voltages cfg)) - 1).
Proof.
  intros Hne. split; [reflexivity|]. split.
  - intros obs. apply index_trajectory_in_range.
    pose proof (catalog_length_pos cfg Hne). lia.
  - intros k st. apply dvfs_run_in_range. exact Hne.
Qed.

(** C2.  One evaluation of the transition rule moves the index by at most
    one: it adds exactly 1, subtracts exactly 1, or leaves it, whatever
    the observed temperature and the current index. *)
Theorem index_rate_limited (cfg : Config F) (T : F) (idx : Z) :
  (dvfs_select cfg T idx = idx + 1
   \/ dvfs_select cfg T idx = idx - 1
   \/ dvfs_select cfg T idx = idx)
  /\ Z.abs (dvfs_select cfg T idx - idx) <= 1.
Proof.
  destruct (dvfs_select_cases cfg T idx) as [(_ & _ & E)|[(_ & _ & E)|E]];
    rewrite E; split; auto; lia.
Qed.

End Controller.

Lemma index_within_catalog_witness :
  voltages (default_config sustained_load) <> []
  /\ voltage_index (dvfs_init (default_config sustained_load)) = 0%Z
  /\ (forall obs : list float,
        Forall (fun i => (0 <= i <= 5 - 1)%Z)
               (index_trajectory (default_config sustained_load) 0 obs))
  /\ (forall k st, dvfs_run (default_config sustained_load) k = Ok st ->
        (0 <= voltage_index st <= 5 - 1)%Z).
Proof.
  split; [discriminate|].
  apply (@index_within_catalog float _ (default_config sustained_load)).
  discriminate.
Defined.

(** ** Hysteresis *)

Section Hysteresis.

Context {F : Type} {num : Num F}.
Local Open Scope num_scope.
Local Open Scope Z_scope.

(** A step up (decrement) is taken only on an observation strictly below
    the lower threshold. *)
Lemma decrement_below_lower (cfg : Config F) (T : F) (idx : Z) :
  dvfs_select cfg T idx < idx -> (T <? dvfs_hysteresis cfg)%num = true.
Proof.
  intros H.
  destruct (dvfs_select_cases cfg T idx) as [(_ & _ & E)|[(Hlow & _ & E)|E]];
    rewrite E in H; [lia | exact Hlow | lia].
Qed.

Lemma no_decrement_at_or_above_lower (cfg : Config F) (obs : list F) (idx : Z) :
  Forall (fun T => (T <? dvfs_hysteresis cfg)%num = false) obs ->
  never_decremented idx (index_trajectory cfg idx obs).
Proof.
  intros Hobs; revert idx.
  induction Hobs as [|T obs HT _ IH]; intros idx; simpl; [exact I|].
  split; [|apply IH].
  destruct (Z.le_gt_cases idx (dvfs_select cfg T idx)) as [Hle|Hlt];
    [exact Hle|].
  apply decrement_below_lower in Hlt. congruence.
Qed.

Lemma band_keeps_index {ord : NumOrder F} (cfg : Config F) (T : F) (idx : Z) :
  (dvfs_hysteresis cfg <=? T)%num = true ->
  (T <=? dvfs_temp_limit cfg)%num = true ->
  dvfs_select cfg T idx = idx.
Proof.
  intros Hlo Hhi. apply nleb_nltb in Hlo, Hhi.
  unfold dvfs_select. rewrite Hlo, Hhi. reflexivity.
Qed.

(** C3.  Hysteresis.  Once the controller has incremented its index on an
    observation above the upper threshold, the index is not decremented
    at any later step as long as the observations are not strictly below
    the lower threshold: any decrement is taken on an observation
    strictly below it.  In particular an observation in the closed band
    [lower, upper] leaves the index as it is. *)
Theorem controller_hysteresis {ord : NumOrder F} (cfg : Config F) :
  (forall (T : F) (idx : Z) (obs : list F),
      (T >? dvfs_temp_limit cfg)%num = true ->
      dvfs_select cfg T idx = idx + 1 ->
      Forall (fun T' => (T' <? dvfs_hysteresis cfg)%num = false) obs ->
      never_decremented (idx + 1) (index_trajectory cfg (idx + 1) obs))
  /\ (forall (T : F) (idx : Z),
         dvfs_select cfg T idx < idx ->
         (T <? dvfs_hysteresis cfg)%num = true)
  /\ (forall (T : F) (idx : Z),
         (dvfs_hysteresis cfg <=? T)%num = true ->
         (T <=? dvfs_temp_limit cfg)%num = true ->
         dvfs_select cfg T idx = idx).
Proof.
  split; [|split].
  - intros T idx obs _ _ Hobs. apply no_decrement_at_or_above_lower, Hobs.
  - apply decrement_below_lower.
  - apply band_keeps_index.
Qed.

(** Above the upper threshold, with the thresholds in order, the rule
    moves to the next index unless the index is the last one. *)
Lemma above_limit_steps_down {ord : NumOrder F} (cfg : Config F)
      (T : F) (idx : Z) :
  (dvfs_hysteresis cfg <? dvfs_temp_limit cfg)%num = true ->
  (T >? dvfs_temp_limit cfg)%num = true ->
  dvfs_select cfg T idx
  = if idx <? Z.of_nat (length (voltages cfg)) - 1 then idx + 1 else idx.
Proof.
  intros Hth HT. unfold dvfs_select. rewrite HT. simpl.
  destruct (idx <? _); [reflexivity|].
  rewrite (nltb_asym _ _ (nltb_trans _ _ _ Hth HT)). reflexivity.
Qed.

End Hysteresis.

Lemma controller_hysteresis_witness :
  dvfs_select (default_config sustained_load) 82.5%float 3 = 3%Z
  /\ never_decremented 2
       (index_trajectory (default_config sustained_load) 2
                         [84.0; 86.0; 81.0; 80.0; 90.0]%float).
Proof.
  destruct (@controller_hysteresis float _ float_NumOrder
                        (default_config sustained_load)) as (H1 & _ & H3).
  split.
  - apply H3; reflexivity.
  - apply (H1 86.0%float 1%Z); [reflexivity | reflexivity |].
    repeat constructor.
Defined.

(** ** The concrete scenario: thresholds 85 and 80, five levels *)

(** Under [recrossing_load] the controller is at the last index, 4, when
    the core, at 84.94 after 58 iterations, rises to 85.13 in the 59th;
    the 60th iteration runs at index 4 again. *)
Lemma recrossing_load_at_last_index :
  rmap (fun st => (T_cpu (temps st)
                   >? dvfs_temp_limit (default_config recrossing_load))%num)
       (dvfs_run (default_config recrossing_load) 58) = Ok false
  /\ rmap (fun st => (voltage_index st,
                      (T_cpu (temps st)
                       >? dvfs_temp_limit (default_config recrossing_load))%num))
          (dvfs_run (default_config recrossing_load) 59) = Ok (4%Z, true)
  /\ rmap (@voltage_index float)
          (dvfs_run (default_config recrossing_load) 60) = Ok 4%Z.
Proof. repeat split; vm_compute; reflexivity. Qed.

(** C4, as claimed, fails: with the controller already at index 4, a core
    temperature that crosses 85 leaves the index at 4, not strictly
    greater. *)
Lemma always_steps_down_fails :
  length recrossing_load = 1000%nat
  /\ ~ (forall trace : list float, always_steps_down (default_config trace)).
Proof.
  split; [reflexivity|].
  intros H. specialize (H recrossing_load 59%nat).
  destruct recrossing_load_at_last_index as (_ & H59 & H60).
  destruct (dvfs_run (default_config recrossing_load) 59) as [st|e];
    [|discriminate H59].
  destruct (dvfs_run (default_config recrossing_load) 60) as [st'|e];
    [|discriminate H60].
  unfold rmap, bind in H59, H60.
  injection H59 as Hidx HT. injection H60 as Hidx'.
  specialize (H st st' eq_refl eq_refl HT). lia.
Qed.

Lemma default_thresholds_ordered (trace : list float) :
  (dvfs_hysteresis (default_config trace)
   <? dvfs_temp_limit (default_config trace))%num = true.
Proof. reflexivity. Qed.

(** C4, amended.  In the controlled mode with thresholds 85 and 80 over
    the five-level catalog, whenever the core temperature is above 85
    after a step, the next step runs at the next index if the index was
    below 4, and at index 4 again if it was 4: strictly greater except at
    the last operating point, and never smaller. *)
Theorem steps_down_unless_lowest (trace : list float) (k : nat)
        (st st' : DvfsState float) :
  dvfs_run (default_config trace) k = Ok st ->
  dvfs_run (default_config trace) (S k) = Ok st' ->
  (T_cpu (temps st) >? dvfs_temp_limit (default_config trace))%num = true ->
  voltage_index st'
  = (if (voltage_index st <? 4)%Z then voltage_index st + 1
     else voltage_index st)%Z
  /\ (voltage_index st <= voltage_index st')%Z.
Proof.
  intros Hk HS HT.
  rewrite (dvfs_run_index_step _ k st st' Hk HS).
  rewrite (above_limit_steps_down (default_config trace) _ _
             (default_thresholds_ordered trace) HT).
  change (Z.of_nat (length (voltages (default_config trace))) - 1)%Z
    with 4%Z.
  split; [reflexivity|]. destruct (voltage_index st <? 4)%Z; lia.
Qed.

Lemma steps_down_unless_lowest_witness :
  exists st st' : DvfsState float,
    dvfs_run (default_config sustained_load) 40 = Ok st
    /\ dvfs_run (default_config sustained_load) 41 = Ok st'
    /\ (T_cpu (temps st)
        >? dvfs_temp_limit (default_config sustained_load))%num = true
    /\ voltage_index st'
       = (if (voltage_index st <? 4)%Z then voltage_index st + 1
          else voltage_index st)%Z
    /\ (voltage_index st <= voltage_index st')%Z.
Proof.
  eexists; eexists.
  split; [vm_compute; reflexivity|].
  split; [vm_compute; reflexivity|].
  split; [vm_compute; reflexivity|].
  apply (steps_down_unless_lowest sustained_load 40);
    vm_compute; reflexivity.
Defined.

(** ** The power model *)

Lemma default_square_ratio_one (trace : list float) :
  nsqr (v_nom (default_config trace) / v_nom (default_config trace))%num
  = 1%float.
Proof. reflexivity. Qed.

(** At the nominal voltage, index 0 of the catalog, the controlled mode
    computes the power of the free-running mode. *)
Lemma nominal_power (trace : list float) (a : float) :
  dvfs_power (default_config trace) a 0.75%float
  = free_power (default_config trace) a.
Proof.
  unfold dvfs_power, free_power, dvfs_freq.
  cbn [nadd nmul ndiv nsqr float_Num f_nom v_nom pleak_nom default_config].
  change (2 * (0.75 / 0.75))%float with 2%float.
  change (0.75 / 0.75 * (0.75 / 0.75))%float with 1%float.
  rewrite float_mul_1_r. reflexivity.
Qed.

Lemma free_power_is_model (trace : list float) (a : float) :
  free_power (default_config trace) a
  = power_model a (f_nom (default_config trace))
                (v_nom (default_config trace) / v_nom (default_config trace))%num
                (pleak_nom (default_config trace)).
Proof.
  unfold power_model. rewrite default_square_ratio_one.
  unfold free_power. cbn [nadd nmul float_Num].
  rewrite float_mul_1_r. reflexivity.
Qed.

Lemma free_power_floor (trace : list float) (a : float) :
  (nzero <=? a)%num = true ->
  (pleak_nom (default_config trace) <=? free_power (default_config trace) a)%num
  = true.
Proof.
  intros Ha. unfold free_power.
  cbn [nadd nmul nleb nzero float_Num f_nom pleak_nom default_config] in *.
  eapply float_add_ge_r; [reflexivity|].
  eapply float_mul_nonneg; [reflexivity | exact Ha].
Qed.

Lemma dvfs_power_floor (trace : list float) (a volt : float) :
  (nzero <=? a)%num = true ->
  In volt (voltages (default_config trace)) ->
  (pleak_nom (default_config trace)
   <=? dvfs_power (default_config trace) a volt)%num = true.
Proof.
  intros Ha Hin. unfold dvfs_power, dvfs_freq.
  cbn [nadd nmul ndiv nsqr nleb nzero float_Num f_nom v_nom pleak_nom
       voltages default_config In] in *.
  destruct Hin as [<-|[<-|[<-|[<-|[<-|[]]]]]];
    (eapply float_add_ge_r; [reflexivity|];
     eapply float_mul_nonneg; [reflexivity|];
     eapply float_mul_nonneg; [reflexivity | exact Ha]).
Qed.

(** ** The integrator *)

Section Integrator.

Context {F : Type} {num : Num F}.
Local Open Scope num_scope.

Lemma thermal_update_snapshot (cfg : Config F) (P : F) (s : Temps F) :
  thermal_update cfg P s = snapshot_update cfg P s.
Proof.
  unfold thermal_update, snapshot_update,
    upd_T_cpu, upd_T_soc, upd_T_pkg, upd_T_board.
  destruct (pydiv (T_cpu s - T_soc s) (R1 cfg)) as [q1|]; [|reflexivity].
  destruct (pydiv (T_soc s - T_board s) (R2 cfg)) as [q2|]; [|reflexivity].
  destruct (pydiv (T_soc s - T_pkg s) (R4 cfg)) as [q4|]; [|reflexivity].
  cbn [bind].
  destruct (pydiv (dt cfg) (C_cpu cfg)) as [k1|]; [|reflexivity].
  cbn [bind].
  destruct (pydiv (dt cfg) (C_board cfg)) as [k2|]; [|reflexivity].
  cbn [bind].
  destruct (pydiv (dt cfg) (C_pkg cfg)) as [k3|]; [|reflexivity].
  cbn [bind set_T_cpu set_T_soc T_pkg].
  destruct (pydiv (T_pkg s - T_ambient cfg) (R5 cfg)) as [q5|]; [|reflexivity].
  cbn [bind].
  destruct (pydiv (dt cfg) (C_amb cfg)) as [k4|]; [|reflexivity].
  cbn [bind set_T_cpu set_T_soc set_T_pkg T_board].
  destruct (pydiv (T_board s - T_ambient cfg) (R3 cfg)) as [q3|];
    reflexivity.
Qed.

Lemma pydiv_inv (x y q : F) : pydiv x y = Ok q -> q = x / y.
Proof.
  unfold pydiv. destruct (nis_zero y); [discriminate|].
  intros H; injection H as <-. reflexivity.
Qed.

Lemma thermal_update_inv (cfg : Config F) (P : F) (s r : Temps F) :
  thermal_update cfg P s = Ok r ->
  T_cpu r = T_cpu s + dt cfg / C_cpu cfg
                      * (P - (T_cpu s - T_soc s) / R1 cfg)
  /\ T_soc r = T_soc s + dt cfg / C_board cfg
                         * ((T_cpu s - T_soc s) / R1 cfg
                            - (T_soc s - T_board s) / R2 cfg
                            - (T_soc s - T_pkg s) / R4 cfg)
  /\ T_pkg r = T_pkg s + dt cfg / C_pkg cfg
                         * ((T_soc s - T_pkg s) / R4 cfg
                            - (T_pkg s - T_ambient cfg) / R5 cfg)
  /\ T_board r = T_board s + dt cfg / C_amb cfg
                             * ((T_soc s - T_board s) / R2 cfg
                                - (T_board s - T_ambient cfg) / R3 cfg).
Proof.
  rewrite thermal_update_snapshot. unfold snapshot_update. intros H.
  repeat match type of H with
         | bind _ _ = Ok _ =>
             let q := fresh "q" in
             let Hq := fresh "Hq" in
             apply bind_Ok in H as (q & Hq & H); apply pydiv_inv in Hq
         end.
  injection H as <-. cbn [T_cpu T_soc T_pkg T_board]. subst. auto.
Qed.

Lemma free_iter_Ok (cfg : Config F) (i : nat) (st st' : FreeState F) :
  free_iter cfg i st = Ok st' ->
  exists a,
    getitem (cdyn_trace cfg) (Z.of_nat i) = Ok a
    /\ thermal_update cfg (free_power cfg a) (free_temps st)
       = Ok (free_temps st')
    /\ free_T_cpu_hist st'
       = free_T_cpu_hist st ++ [T_cpu (free_temps st')].
Proof.
  unfold free_iter. intros H.
  apply bind_Ok in H as (a & Ha & H).
  apply bind_Ok in H as (s & Hs & H).
  injection H as <-. exists a. simpl. auto.
Qed.

(** C6.  In every iteration of both loops the four node temperatures are
    advanced from the temperatures at the start of the step: the update
    the loops run, statement after statement, is the update that computes
    every heat flow and every new temperature from one snapshot of the
    pre-step temperatures. *)
Theorem updates_read_start_of_step (cfg : Config F) :
  (forall (P : F) (s : Temps F),
      thermal_update cfg P s = snapshot_update cfg P s)
  /\ (forall i st st', free_iter cfg i st = Ok st' ->
        exists a, getitem (cdyn_trace cfg) (Z.of_nat i) = Ok a
                  /\ snapshot_update cfg (free_power cfg a) (free_temps st)
                     = Ok (free_temps st'))
  /\ (forall i st st', dvfs_iter cfg i st = Ok st' ->
        exists a volt,
          getitem (cdyn_trace cfg) (Z.of_nat i) = Ok a
          /\ getitem (voltages cfg) (voltage_index st') = Ok volt
          /\ snapshot_update cfg (dvfs_power cfg a volt) (temps st)
             = Ok (temps st')).
Proof.
  split; [apply thermal_update_snapshot|]. split.
  - intros i st st' H. apply free_iter_Ok in H as (a & Ha & Hs & _).
    exists a. rewrite <- thermal_update_snapshot. auto.
  - intros i st st' H.
    apply dvfs_iter_Ok in H as (volt & a & Hv & Ha & Hs & Hidx & _).
    exists a, volt. rewrite <- thermal_update_snapshot, Hidx. auto.
Qed.


End Integrator.

Lemma updates_read_start_of_step_witness :
  exists (st' : DvfsState float) (a volt : float),
    dvfs_iter (default_config sustained_load) 0
              (dvfs_init (default_config sustained_load)) = Ok st'
    /\ snapshot_update (default_config sustained_load)
         (dvfs_power (default_config sustained_load) a volt)
         (init_temps (default_config sustained_load))
       = Ok (temps st').
Proof.
  destruct (dvfs_iter (default_config sustained_load) 0
                      (dvfs_init (default_config sustained_load)))
    as [st'|e] eqn:E; [|vm_compute in E; discriminate E].
  destruct (proj2 (proj2 (updates_read_start_of_step
                            (default_config sustained_load)))
                  0%nat _ st' E) as (a & volt & _ & _ & H).
  exists st', a, volt. split; [reflexivity | exact H].
Defined.

(** ** Runs that do not raise *)

Section Totality.

Context {F : Type} {num : Num F}.
Local Open Scope num_scope.

Lemma pydiv_Ok (x y : F) : nis_zero y = false -> pydiv x y = Ok (x / y).
Proof. unfold pydiv. intros ->. reflexivity. Qed.

Variable cfg : Config F.
Hypothesis Hrun : runnable cfg = true.

Lemma runnable_facts :
  voltages cfg <> []
  /\ (length (time cfg) <= length (cdyn_trace cfg))%nat
  /\ nis_zero (R1 cfg) = false /\ nis_zero (R2 cfg) = false
  /\ nis_zero (R3 cfg) = false /\ nis_zero (R4 cfg) = false
  /\ nis_zero (R5 cfg) = false
  /\ nis_zero (C_cpu cfg) = false /\ nis_zero (C_board cfg) = false
  /\ nis_zero (C_amb cfg) = false /\ nis_zero (C_pkg cfg) = false.
Proof.
  pose proof Hrun as H. unfold runnable in H.
  repeat (apply andb_prop in H as [H ?]).
  repeat match goal with
         | H : negb _ = true |- _ => apply negb_true_iff in H
         end.
  repeat split; try assumption.
  - intros E. rewrite E in H. discriminate.
  - apply Nat.leb_le. assumption.
Qed.

Lemma thermal_update_total (P : F) (s : Temps F) :
  exists s', thermal_update cfg P s = Ok s'.
Proof.
  destruct runnable_facts
    as (_ & _ & HR1 & HR2 & HR3 & HR4 & HR5 & HC1 & HC2 & HC3 & HC4).
  rewrite thermal_update_snapshot. unfold snapshot_update.
  rewrite !pydiv_Ok by assumption. cbn [bind]. eauto.
Qed.

Lemma trace_sample (i : nat) :
  (i < length (time cfg))%nat ->
  exists a, getitem (cdyn_trace cfg) (Z.of_nat i) = Ok a.
Proof.
  destruct runnable_facts as (_ & Hlen & _).
  intros Hi. apply getitem_in_range. lia.
Qed.

Lemma free_run_total (k : nat) :
  (k <= length (time cfg))%nat -> exists st, free_run cfg k = Ok st.
Proof.
  induction k as [|k IH]; intros Hk; [eexists; reflexivity|].
  destruct IH as (st & Hst); [lia|].
  unfold free_run in *. rewrite for_range_snoc, Hst. cbn [bind].
  unfold free_iter.
  destruct (trace_sample k) as (a & ->); [lia|]. cbn [bind].
  destruct (thermal_update_total (free_power cfg a) (free_temps st))
    as (s & ->).
  cbn [bind]. eauto.
Qed.

Lemma dvfs_run_total (k : nat) :
  (k <= length (time cfg))%nat -> exists st, dvfs_run cfg k = Ok st.
Proof.
  destruct runnable_facts as (Hne & _).
  induction k as [|k IH]; intros Hk; [eexists; reflexivity|].
  destruct IH as (st & Hst); [lia|].
  rewrite dvfs_run_S, Hst. cbn [bind]. unfold dvfs_iter.
  pose proof (dvfs_run_in_range cfg k st Hne Hst) as Hidx.
  destruct (getitem_in_range (voltages cfg)
              (dvfs_select cfg (T_cpu (temps st)) (voltage_index st)))
    as (volt & ->).
  { pose proof (dvfs_select_in_range cfg (T_cpu (temps st)) _ Hidx). lia. }
  cbn [bind].
  destruct (trace_sample k) as (a & ->); [lia|]. cbn [bind].
  destruct (thermal_update_total (dvfs_power cfg a volt) (temps st))
    as (s & ->).
  cbn [bind]. eauto.
Qed.

Lemma run_both_total : exists r, run_both cfg = Ok r.
Proof.
  unfold run_both, simulate_free_running, simulate_dvfs_strict.
  destruct (free_run_total (length (time cfg))) as (sf & ->); [lia|].
  destruct (dvfs_run_total (length (time cfg))) as (sd & ->); [lia|].
  cbn [bind]. eauto.
Qed.

End Totality.

(** ** The power of a step *)

Section StepPower.

Variable trace : list float.
Local Abbreviation cfg := (default_config trace).
Local Open Scope num_scope.

Lemma default_config_runnable :
  (length (time cfg) <= length trace)%nat -> runnable cfg = true.
Proof.
  intros Hlen. apply Nat.leb_le in Hlen. unfold runnable.
  change (cdyn_trace cfg) with trace. rewrite Hlen. reflexivity.
Qed.

Lemma free_run_iter (k : nat) (sf sf' : FreeState float) :
  free_run cfg k = Ok sf -> free_run cfg (S k) = Ok sf' ->
  free_iter cfg k sf = Ok sf'.
Proof.
  unfold free_run. intros Hk HS.
  rewrite for_range_snoc, Hk in HS. exact HS.
Qed.

Lemma dvfs_run_iter (k : nat) (sd sd' : DvfsState float) :
  dvfs_run cfg k = Ok sd -> dvfs_run cfg (S k) = Ok sd' ->
  dvfs_iter cfg k sd = Ok sd'.
Proof.
  intros Hk HS. rewrite dvfs_run_S, Hk in HS. exact HS.
Qed.

(** C5.  With the script's constants and any workload, in both loops.
    An iteration of the free-running loop that reads the sample [a]
    advances the temperatures with the power [a * f * r ** 2 + pleak_nom]
    taken at the nominal frequency [f = f_nom] and the ratio
    [r = v_nom / v_nom]: this is the power that enters the core's update.
    An iteration of the controlled loop that reads the sample [a] and the
    catalog voltage [volt] records [volt] and the frequency
    [f = f_nom * (volt / v_nom)], and advances the temperatures with the
    power [a * f * r ** 2 + pleak_nom] at the ratio [r = volt / v_nom].
    In both, a non-negative sample gives a power that is at least the
    leakage constant.  Every step of the two runs over the grid is such
    an iteration, as long as the workload has a sample for every grid
    point. *)
Theorem step_power_is_model_above_leakage :
  (forall (i : nat) (st st' : FreeState float),
      free_iter cfg i st = Ok st' ->
      exists a : float,
        getitem (cdyn_trace cfg) (Z.of_nat i) = Ok a
        /\ let P := power_model a (f_nom cfg) (v_nom cfg / v_nom cfg)
                                (pleak_nom cfg) in
           thermal_update cfg P (free_temps st) = Ok (free_temps st')
           /\ T_cpu (free_temps st')
              = T_cpu (free_temps st)
                + dt cfg / C_cpu cfg
                  * (P - (T_cpu (free_temps st) - T_soc (free_temps st))
                         / R1 cfg)
           /\ ((nzero <=? a) = true -> (pleak_nom cfg <=? P) = true))
  /\ (forall (i : nat) (st st' : DvfsState float),
      dvfs_iter cfg i st = Ok st' ->
      exists a volt : float,
        getitem (cdyn_trace cfg) (Z.of_nat i) = Ok a
        /\ getitem (voltages cfg) (voltage_index st') = Ok volt
        /\ let r := volt / v_nom cfg in
           let f := f_nom cfg * r in
           let P := power_model a f r (pleak_nom cfg) in
           volt_hist st' = volt_hist st ++ [volt]
           /\ freq_hist st' = freq_hist st ++ [f]
           /\ thermal_update cfg P (temps st) = Ok (temps st')
           /\ T_cpu (temps st')
              = T_cpu (temps st)
                + dt cfg / C_cpu cfg
                  * (P - (T_cpu (temps st) - T_soc (temps st)) / R1 cfg)
           /\ ((nzero <=? a) = true -> (pleak_nom cfg <=? P) = true))
  /\ (forall k : nat,
      (k < length (time cfg))%nat ->
      (length (time cfg) <= length trace)%nat ->
      exists (sf sf' : FreeState float) (sd sd' : DvfsState float),
        free_run cfg k = Ok sf
        /\ free_iter cfg k sf = Ok sf'
        /\ free_run cfg (S k) = Ok sf'
        /\ dvfs_run cfg k = Ok sd
        /\ dvfs_iter cfg k sd = Ok sd'
        /\ dvfs_run cfg (S k) = Ok sd').
Proof.
  split; [|split].
  - intros i st st' H.
    apply free_iter_Ok in H as (a & Ha & Hs & _).
    exists a. split; [exact Ha|]. cbv zeta.
    rewrite <- free_power_is_model.
    split; [exact Hs|]. split.
    + exact (proj1 (thermal_update_inv _ _ _ _ Hs)).
    + apply free_power_floor.
  - intros i st st' H.
    apply dvfs_iter_Ok in H
      as (volt & a & Hv & Ha & Hs & Hidx & _ & Hfh & Hvh).
    cbv zeta in Hv, Hidx.
    exists a, volt. rewrite Hidx.
    split; [exact Ha|]. split; [exact Hv|]. cbv zeta.
    change (power_model a (f_nom cfg * (volt / v_nom cfg))
                        (volt / v_nom cfg) (pleak_nom cfg))
      with (dvfs_power cfg a volt).
    split; [exact Hvh|]. split; [exact Hfh|]. split; [exact Hs|]. split.
    + exact (proj1 (thermal_update_inv _ _ _ _ Hs)).
    + intros Hpos. apply dvfs_power_floor; [exact Hpos|].
      eapply getitem_Ok_In; exact Hv.
  - intros k Hk Hlen.
    pose proof (default_config_runnable Hlen) as Hrun.
    destruct (free_run_total cfg Hrun k) as (sf & Hsf); [lia|].
    destruct (free_run_total cfg Hrun (S k)) as (sf' & Hsf'); [lia|].
    destruct (dvfs_run_total cfg Hrun k) as (sd & Hsd); [lia|].
    destruct (dvfs_run_total cfg Hrun (S k)) as (sd' & Hsd'); [lia|].
    exists sf, sf', sd, sd'.
    split; [exact Hsf|].
    split; [exact (free_run_iter k sf sf' Hsf Hsf')|].
    split; [exact Hsf'|].
    split; [exact Hsd|].
    split; [exact (dvfs_run_iter k sd sd' Hsd Hsd')|].
    exact Hsd'.
Qed.

End StepPower.

Lemma step_power_is_model_above_leakage_witness :
  exists (sd sd' : DvfsState float) (volt : float),
    dvfs_run (default_config sustained_load) 44 = Ok sd
    /\ dvfs_iter (default_config sustained_load) 44 sd = Ok sd'
    /\ getitem (voltages (default_config sustained_load))
               (voltage_index sd') = Ok volt
    /\ thermal_update (default_config sustained_load)
         (power_model 0.875%float
            (f_nom (default_config sustained_load)
             * (volt / v_nom (default_config sustained_load)))%num
            (volt / v_nom (default_config sustained_load))%num
            (pleak_nom (default_config sustained_load)))
         (temps sd)
       = Ok (temps sd')
    /\ (pleak_nom (default_config sustained_load)
        <=? power_model 0.875%float
              (f_nom (default_config sustained_load)
               * (volt / v_nom (default_config sustained_load)))%num
              (volt / v_nom (default_config sustained_load))%num
              (pleak_nom (default_config sustained_load)))%num = true.
Proof.
  destruct (proj2 (proj2 (step_power_is_model_above_leakage sustained_load))
                  44%nat)
    as (sf & sf' & sd & sd' & _ & _ & _ & Hsd & Hit & _).
  - apply Nat.ltb_lt. vm_compute. reflexivity.
  - apply Nat.leb_le. vm_compute. reflexivity.
  - destruct (proj1 (proj2 (step_power_is_model_above_leakage sustained_load))
                    44%nat sd sd' Hit)
      as (a & volt & Ha & Hv & H).
    cbv zeta in H. destruct H as (_ & _ & Hth & _ & Hfloor).
    vm_compute in Ha. injection Ha as <-.
    exists sd, sd', volt.
    split; [exact Hsd|]. split; [exact Hit|]. split; [exact Hv|].
    split; [exact Hth|]. apply Hfloor. reflexivity.
Defined.

(** ** The operating-point catalog *)

Section Catalog.

Context {F : Type} {num : Num F}.
Local Open Scope num_scope.

(** What the controlled loop has recorded after [k] iterations: one
    catalog voltage per iteration, and next to it the frequency
    [f_nom * (volt / v_nom)]. *)
Lemma dvfs_run_hist (cfg : Config F) (k : nat) (st : DvfsState F) :
  dvfs_run cfg k = Ok st ->
  freq_hist st = map (fun volt => f_nom cfg * (volt / v_nom cfg)) (volt_hist st)
  /\ Forall (fun volt => In volt (voltages cfg)) (volt_hist st)
  /\ length (volt_hist st) = k
  /\ length (T_cpu_hist st) = k.
Proof.
  revert st; induction k as [|k IH]; intros st H.
  - injection H as <-. simpl. auto.
  - apply dvfs_run_step in H as (st0 & H0 & Hi).
    destruct (IH st0 H0) as (IHf & IHv & IHl & IHt).
    apply dvfs_iter_Ok in Hi
      as (volt & a & Hv & _ & _ & _ & HTh & Hfh & Hvh).
    rewrite Hfh, Hvh, HTh, map_app, IHf, !length_app, IHl, IHt.
    cbn [map length]. repeat split; try lia.
    apply Forall_app; split; [exact IHv|].
    constructor; [|constructor]. eapply getitem_Ok_In; eauto.
Qed.

Lemma strictly_decreasing_pairwise {ord : NumOrder F} (l : list F) :
  strictly_decreasing l = true ->
  forall (i j : nat) (vi vj : F),
    (i < j)%nat -> nth_error l i = Some vi -> nth_error l j = Some vj ->
    (vj <? vi) = true.
Proof.
  induction l as [|x l IH]; intros Hsd i j vi vj Hij Hi Hj.
  - destruct i; discriminate Hi.
  - destruct l as [|y l]; [destruct j as [|[|j]]; [lia | | ]; discriminate Hj|].
    cbn [strictly_decreasing] in Hsd. apply andb_prop in Hsd as [Hyx Hsd].
    destruct j as [|j]; [lia|]. cbn [nth_error] in Hj.
    destruct i as [|i]; cbn [nth_error] in Hi.
    + injection Hi as <-. destruct j as [|j].
      * injection Hj as <-. exact Hyx.
      * apply (nltb_trans _ y _); [|exact Hyx].
        apply (IH Hsd 0%nat (S j) y vj); [lia | reflexivity | exact Hj].
    + apply (IH Hsd i j vi vj); [lia | exact Hi | exact Hj].
Qed.

End Catalog.

(** C7.  The catalog's voltages are strictly decreasing with the index,
    and at every step the controlled simulation records a catalog voltage
    together with the frequency [f_nom * (volt / v_nom)]: the nominal
    frequency scaled by the selected voltage over the nominal one. *)
Theorem catalog_decreasing_frequency_scaled (trace : list float) :
  strictly_decreasing (voltages (default_config trace)) = true
  /\ (forall (i j : nat) (vi vj : float),
         (i < j)%nat ->
         nth_error (voltages (default_config trace)) i = Some vi ->
         nth_error (voltages (default_config trace)) j = Some vj ->
         (vj <? vi)%num = true)
  /\ (forall (k : nat) (st : DvfsState float),
         dvfs_run (default_config trace) k = Ok st ->
         freq_hist st
         = map (fun volt => (f_nom (default_config trace)
                             * (volt / v_nom (default_config trace)))%num)
               (volt_hist st)
         /\ Forall (fun volt => In volt (voltages (default_config trace)))
                   (volt_hist st)
         /\ length (volt_hist st) = k).
Proof.
  split; [reflexivity|]. split.
  - apply strictly_decreasing_pairwise. reflexivity.
  - intros k st H.
    destruct (dvfs_run_hist (default_config trace) k st H)
      as (Hf & Hv & Hl & _).
    auto.
Qed.

Lemma catalog_decreasing_frequency_scaled_witness :
  exists st : DvfsState float,
    dvfs_run (default_config sustained_load) 45 = Ok st
    /\ freq_hist st
       = map (fun volt => (f_nom (default_config sustained_load)
                           * (volt / v_nom (default_config sustained_load)))%num)
             (volt_hist st)
    /\ Forall (fun volt => In volt (voltages (default_config sustained_load)))
              (volt_hist st)
    /\ length (volt_hist st) = 45%nat.
Proof.
  eexists. split; [vm_compute; reflexivity|].
  apply (proj2 (proj2 (catalog_decreasing_frequency_scaled sustained_load))).
  vm_compute; reflexivity.
Defined.

(** ** Configurations that are not well formed *)

Lemma well_formed_runnable (cfg : Config float) :
  well_formed cfg = true -> runnable cfg = true.
Proof.
  unfold well_formed, runnable. intros H.
  repeat (apply andb_prop in H as [H ?]).
  repeat match goal with
         | H : (nzero <? _)%num = true |- _ => apply float_pos_not_zero in H
         end.
  repeat (apply andb_true_intro; split);
    try (apply negb_true_iff; assumption); try assumption.
  apply Nat.leb_le. apply Nat.eqb_eq in H0. lia.
Qed.

(** C8, as claimed, fails: the configuration [inverted_config], with the
    lower threshold above the upper one and a catalog that is not
    monotonic, raises nothing; both simulations run their 1000 steps. *)
Lemma malformed_configuration_runs :
  well_formed inverted_config = false
  /\ rmap (fun r => (length (fst r), length (fst (fst (snd r)))))
          (run_both inverted_config) = Ok (1000%nat, 1000%nat)
  /\ ~ @rejects_malformed float float_Num.
Proof.
  assert (Hwf : well_formed inverted_config = false)
    by (vm_compute; reflexivity).
  assert (Hrun : rmap (fun r => (length (fst r), length (fst (fst (snd r)))))
                      (run_both inverted_config) = Ok (1000%nat, 1000%nat))
    by (vm_compute; reflexivity).
  split; [exact Hwf | split; [exact Hrun|]].
  intros H. destruct (H inverted_config Hwf) as (e & He).
  rewrite He in Hrun. discriminate Hrun.
Qed.

(** C8, amended.  The program has no configuration checks of its own: a
    configuration malformed only in the order of its thresholds, in the
    order of its catalog or in the sign of a capacitance or resistance
    raises nothing.  Given the time grid, no per-step computation fails
    once the catalog is not empty, the workload has a sample for every
    grid point and no resistance or capacitance is zero; a well-formed
    configuration meets these conditions. *)
Theorem no_failure_once_runnable (cfg : Config float) :
  (runnable cfg = true -> exists r, run_both cfg = Ok r)
  /\ (well_formed cfg = true -> runnable cfg = true).
Proof.
  split.
  - apply run_both_total.
  - apply well_formed_runnable.
Qed.

Lemma no_failure_once_runnable_witness :
  well_formed (default_config sustained_load) = true
  /\ exists r, run_both (default_config sustained_load) = Ok r.
Proof.
  split; [vm_compute; reflexivity|].
  destruct (no_failure_once_runnable (default_config sustained_load))
    as [Hrun Hwf].
  apply Hrun, Hwf. vm_compute; reflexivity.
Defined.

(** ** A run that never crosses the upper threshold *)

Lemma never_exceeds_from_sound {F : Type} {num : Num F} (cfg : Config F)
      (j : nat) :
  forall (i : nat) (st : DvfsState F),
    never_exceeds_from cfg (seq i j) st = true ->
    forall (m : nat) (st' : DvfsState F),
      (m < j)%nat ->
      for_range (dvfs_iter cfg) (seq i m) st = Ok st' ->
      (T_cpu (temps st') >? dvfs_temp_limit cfg)%num = false.
Proof.
  induction j as [|j IH]; intros i st Hchk m st' Hm Hrun; [lia|].
  cbn [seq never_exceeds_from] in Hchk.
  apply andb_prop in Hchk as [Hobs Hrest].
  destruct m as [|m].
  - injection Hrun as <-. apply negb_true_iff. exact Hobs.
  - cbn [seq for_range] in Hrun.
    destruct (dvfs_iter cfg i st) as [st1|e]; [|discriminate Hrun].
    cbn [bind] in Hrun. apply (IH (S i) st1 Hrest m st'); [lia | exact Hrun].
Qed.

Lemma never_exceeds_check_sound {F : Type} {num : Num F} (cfg : Config F)
      (n : nat) :
  never_exceeds_check cfg n = true -> never_exceeds cfg n.
Proof.
  intros Hchk k st Hk Hrun.
  exact (never_exceeds_from_sound cfg n 0 (dvfs_init cfg) Hchk k st Hk Hrun).
Qed.

Lemma in_step_run (trace : list float) (n k : nat) :
  never_exceeds (default_config trace) n -> (k <= n)%nat ->
  in_step (dvfs_run (default_config trace) k)
          (free_run (default_config trace) k).
Proof.
  intros Hcool. induction k as [|k IH]; intros Hk.
  - cbn. auto.
  - specialize (IH ltac:(lia)).
    unfold free_run in *. rewrite dvfs_run_S, for_range_snoc.
    destruct (dvfs_run (default_config trace) k) as [sd|e] eqn:Ed;
      destruct (for_range (free_iter (default_config trace)) (seq 0 k)
                          (free_init (default_config trace))) as [sf|e'];
      cbn [in_step] in IH; try contradiction; [|exact IH].
    destruct IH as (Ht & Hh & Hi). cbn [bind].
    pose proof (Hcool k sd ltac:(lia) Ed) as Hobs.
    unfold dvfs_iter, free_iter, dvfs_select.
    rewrite Hobs, Hi, andb_false_r. cbn [andb].
    change (getitem (voltages (default_config trace)) 0)
      with (Ok 0.75%float : result float).
    cbn [bind].
    destruct (getitem (cdyn_trace (default_config trace)) (Z.of_nat k))
      as [a|e]; cbn [bind in_step]; [|reflexivity].
    rewrite nominal_power, Ht.
    destruct (thermal_update (default_config trace)
                (free_power (default_config trace) a) (free_temps sf))
      as [s|e]; cbn [bind in_step temps free_temps T_cpu_hist
                     free_T_cpu_hist voltage_index]; [|reflexivity].
    rewrite Hh. auto.
Qed.

(** C10.  For every workload under which the core temperature observed
    at each step of the controlled run does not exceed the upper
    threshold, the controller stays at index 0 throughout and the
    controlled run returns the core-temperature trajectory of the
    free-running run on the same workload, float for float. *)
Theorem cool_run_is_free_running (trace : list float) :
  never_exceeds (default_config trace)
                (length (time (default_config trace))) ->
  (forall (k : nat) (st : DvfsState float),
      (k <= length (time (default_config trace)))%nat ->
      dvfs_run (default_config trace) k = Ok st ->
      voltage_index st = 0%Z)
  /\ rmap (fun r => fst (fst r)) (simulate_dvfs_strict (default_config trace))
     = simulate_free_running (default_config trace).
Proof.
  intros Hcool. split.
  - intros k st Hk Hrun.
    pose proof (in_step_run trace _ k Hcool Hk) as H.
    rewrite Hrun in H.
    destruct (free_run (default_config trace) k); cbn [in_step] in H;
      [tauto | contradiction].
  - pose proof (in_step_run trace _ _ Hcool (le_n _)) as H.
    unfold simulate_dvfs_strict, simulate_free_running, rmap.
    destruct (dvfs_run (default_config trace) _) as [sd|e];
      destruct (free_run (default_config trace) _) as [sf|e'];
      cbn [in_step] in H; cbn [bind fst]; try contradiction.
    + destruct H as (_ & -> & _). reflexivity.
    + congruence.
Qed.

Lemma cool_run_is_free_running_witness :
  rmap (fun r => fst (fst r)) (simulate_dvfs_strict (default_config light_load))
  = simulate_free_running (default_config light_load).
Proof.
  apply (cool_run_is_free_running light_load).
  apply never_exceeds_check_sound. vm_compute. reflexivity.
Defined.

(** * Further properties of the simulations *)

(** ** Exceptions inside the loops *)

Lemma for_range_Raise {St : Type} (body : nat -> St -> result St)
      (k n : nat) (st : St) (e : PyError) :
  (k <= n)%nat ->
  for_range body (seq 0 k) st = Raise e ->
  for_range body (seq 0 n) st = Raise e.
Proof.
  intros Hkn Hk.
  replace n with (k + (n - k))%nat by lia.
  rewrite seq_app, for_range_app, Hk. reflexivity.
Qed.

Lemma getitem_out_of_range {A : Type} (l : list A) (i : nat) :
  (length l <= i)%nat -> getitem l (Z.of_nat i) = Raise IndexError.
Proof.
  intros Hi. unfold getitem.
  destruct (Z.ltb_spec (Z.of_nat i) 0); [lia|].
  destruct (Z.ltb_spec (Z.of_nat i) (Z.of_nat (length l))); [lia|].
  rewrite andb_false_r. reflexivity.
Qed.

Section LoopErrors.

Context {F : Type} {num : Num F}.
Local Open Scope num_scope.

Variable cfg : Config F.

Lemma no_zero_divisor_facts :
  no_zero_divisor cfg = true ->
  nis_zero (R1 cfg) = false /\ nis_zero (R2 cfg) = false
  /\ nis_zero (R4 cfg) = false /\ nis_zero (C_cpu cfg) = false
  /\ nis_zero (C_board cfg) = false /\ nis_zero (C_pkg cfg) = false
  /\ nis_zero (R5 cfg) = false /\ nis_zero (C_amb cfg) = false
  /\ nis_zero (R3 cfg) = false.
Proof.
  unfold no_zero_divisor, divisors. cbn [forallb]. intros H.
  repeat (apply andb_prop in H as [? H]).
  repeat match goal with
         | H : negb _ = true |- _ => apply negb_true_iff in H
         end.
  auto 10.
Qed.

Lemma thermal_update_Ok (P : F) (s : Temps F) :
  no_zero_divisor cfg = true -> exists s', thermal_update cfg P s = Ok s'.
Proof.
  intros H. destruct (no_zero_divisor_facts H)
    as (H1 & H2 & H4 & Hc1 & Hc2 & Hc3 & H5 & Hc4 & H3).
  rewrite thermal_update_snapshot. unfold snapshot_update.
  rewrite !pydiv_Ok by assumption. cbn [bind]. eauto.
Qed.

(** With a zero among the divisors the update raises
    [ZeroDivisionError], whatever the temperatures and the power. *)
Lemma thermal_update_zero_divisor (P : F) (s : Temps F) :
  no_zero_divisor cfg = false ->
  thermal_update cfg P s = Raise ZeroDivisionError.
Proof.
  unfold no_zero_divisor, divisors. cbn [forallb]. intros H.
  rewrite thermal_update_snapshot. unfold snapshot_update, pydiv.
  destruct (nis_zero (R1 cfg)); [reflexivity|].
  destruct (nis_zero (R2 cfg)); [reflexivity|].
  destruct (nis_zero (R4 cfg)); [reflexivity|].
  destruct (nis_zero (C_cpu cfg)); [reflexivity|].
  destruct (nis_zero (C_board cfg)); [reflexivity|].
  destruct (nis_zero (C_pkg cfg)); [reflexivity|].
  destruct (nis_zero (R5 cfg)); [reflexivity|].
  destruct (nis_zero (C_amb cfg)); [reflexivity|].
  destruct (nis_zero (R3 cfg)); [reflexivity|].
  discriminate H.
Qed.

(** The free-running loop gets through as many iterations as there are
    samples, and has recorded one temperature per iteration. *)
Lemma free_run_upto (k : nat) :
  no_zero_divisor cfg = true -> (k <= length (cdyn_trace cfg))%nat ->
  exists st, free_run cfg k = Ok st /\ length (free_T_cpu_hist st) = k.
Proof.
  intros Hz. induction k as [|k IH]; intros Hk.
  - eexists; split; reflexivity.
  - destruct IH as (st & Hst & Hlen); [lia|].
    unfold free_run in *. rewrite for_range_snoc, Hst. cbn [bind].
    unfold free_iter.
    destruct (getitem_in_range (cdyn_trace cfg) (Z.of_nat k)) as (a & ->);
      [lia|]. cbn [bind].
    destruct (thermal_update_Ok (free_power cfg a) (free_temps st) Hz)
      as (s & ->).
    cbn [bind]. eexists; split; [reflexivity|].
    cbn [free_T_cpu_hist]. rewrite length_app, Hlen. cbn [length]. lia.
Qed.

Lemma dvfs_run_upto (k : nat) :
  no_zero_divisor cfg = true -> voltages cfg <> [] ->
  (k <= length (cdyn_trace cfg))%nat ->
  exists st, dvfs_run cfg k = Ok st.
Proof.
  intros Hz Hne. induction k as [|k IH]; intros Hk.
  - eexists; reflexivity.
  - destruct IH as (st & Hst); [lia|].
    rewrite dvfs_run_S, Hst. cbn [bind]. unfold dvfs_iter.
    pose proof (dvfs_run_in_range cfg k st Hne Hst) as Hidx.
    destruct (getitem_in_range (voltages cfg)
                (dvfs_select cfg (T_cpu (temps st)) (voltage_index st)))
      as (volt & ->).
    { pose proof (dvfs_select_in_range cfg (T_cpu (temps st)) _ Hidx). lia. }
    cbn [bind].
    destruct (getitem_in_range (cdyn_trace cfg) (Z.of_nat k)) as (a & ->);
      [lia|]. cbn [bind].
    destruct (thermal_update_Ok (dvfs_power cfg a volt) (temps st) Hz)
      as (s & ->).
    cbn [bind]. eauto.
Qed.

(** X1.  When nothing raises (a non-empty catalog, a sample for every grid
    point, no zero divisor), the free-running simulation returns exactly
    one core temperature per grid point, and the controlled simulation
    returns three arrays of exactly that length: what the script plots
    against [time]. *)
Theorem simulations_fill_the_grid :
  runnable cfg = true ->
  exists T_free T_dvfs freq_dvfs volt_dvfs,
    simulate_free_running cfg = Ok T_free
    /\ simulate_dvfs_strict cfg = Ok (T_dvfs, freq_dvfs, volt_dvfs)
    /\ length T_free = length (time cfg)
    /\ length T_dvfs = length (time cfg)
    /\ length freq_dvfs = length (time cfg)
    /\ length volt_dvfs = length (time cfg).
Proof.
  intros Hrun.
  destruct (runnable_facts cfg Hrun)
    as (Hne & Hlen & HR1 & HR2 & HR3 & HR4 & HR5 & HC1 & HC2 & HC3 & HC4).
  assert (Hz : no_zero_divisor cfg = true).
  { unfold no_zero_divisor, divisors. cbn [forallb].
    rewrite HR1, HR2, HR3, HR4, HR5, HC1, HC2, HC3, HC4. reflexivity. }
  destruct (free_run_upto (length (time cfg)) Hz Hlen) as (sf & Hsf & Hlf).
  destruct (dvfs_run_upto (length (time cfg)) Hz Hne Hlen) as (sd & Hsd).
  destruct (dvfs_run_hist cfg _ sd Hsd) as (Hf & _ & Hlv & HlT).
  exists (free_T_cpu_hist sf), (T_cpu_hist sd), (freq_hist sd), (volt_hist sd).
  unfold simulate_free_running, simulate_dvfs_strict.
  rewrite Hsf, Hsd. cbn [bind].
  repeat split; try assumption.
  rewrite Hf, length_map. exact Hlv.
Qed.

Lemma grid_has_a_point : time cfg <> [] -> (1 <= length (time cfg))%nat.
Proof. destruct (time cfg); [congruence | cbn [length]; lia]. Qed.

Lemma empty_catalog_first_iteration :
  voltages cfg = [] -> dvfs_run cfg 1 = Raise IndexError.
Proof.
  intros Hv. unfold dvfs_run. cbn [seq for_range].
  unfold dvfs_iter, dvfs_select.
  rewrite Hv. cbn [length Z.of_nat dvfs_init voltage_index].
  rewrite !andb_false_r. reflexivity.
Qed.

(** X2.  With an empty catalog and a non-empty grid the controlled
    simulation raises [IndexError] in its first iteration, at
    [voltages[voltage_index]]: before the workload is read and before any
    division, so whatever the workload and the resistances are. *)
Theorem empty_catalog_raises_IndexError :
  voltages cfg = [] -> time cfg <> [] ->
  simulate_dvfs_strict cfg = Raise IndexError.
Proof.
  intros Hv Ht. unfold simulate_dvfs_strict, dvfs_run.
  rewrite (for_range_Raise _ 1 (length (time cfg)) _ IndexError
             (grid_has_a_point Ht) (empty_catalog_first_iteration Hv)).
  reflexivity.
Qed.

(** X3.  With an empty catalog the script fails only after the
    free-running simulation has run all its steps: that simulation never
    reads the catalog and returns its full trajectory, and the
    [IndexError] comes from the controlled simulation run after it. *)
Theorem empty_catalog_fails_after_free_run :
  voltages cfg = [] -> time cfg <> [] ->
  no_zero_divisor cfg = true ->
  (length (time cfg) <= length (cdyn_trace cfg))%nat ->
  (exists T_free, simulate_free_running cfg = Ok T_free
                  /\ length T_free = length (time cfg))
  /\ run_both cfg = Raise IndexError.
Proof.
  intros Hv Ht Hz Hlen.
  destruct (free_run_upto (length (time cfg)) Hz Hlen) as (sf & Hsf & Hlf).
  unfold run_both, simulate_free_running. rewrite Hsf. cbn [bind].
  split; [eauto|].
  unfold simulate_dvfs_strict, dvfs_run.
  rewrite (for_range_Raise _ 1 (length (time cfg)) _ IndexError
             (grid_has_a_point Ht) (empty_catalog_first_iteration Hv)).
  reflexivity.
Qed.

(** X4.  A workload shorter than the grid is found out mid-run: both
    simulations get through one iteration per sample and raise
    [IndexError] at [cdyn_trace[i]] in the next. *)
Theorem short_workload_raises_IndexError :
  no_zero_divisor cfg = true ->
  (length (cdyn_trace cfg) < length (time cfg))%nat ->
  (exists st, free_run cfg (length (cdyn_trace cfg)) = Ok st)
  /\ simulate_free_running cfg = Raise IndexError
  /\ (voltages cfg <> [] ->
      (exists st, dvfs_run cfg (length (cdyn_trace cfg)) = Ok st)
      /\ simulate_dvfs_strict cfg = Raise IndexError).
Proof.
  intros Hz Hlen.
  destruct (free_run_upto (length (cdyn_trace cfg)) Hz (le_n _))
    as (sf & Hsf & _).
  split; [eauto|]. split.
  - unfold simulate_free_running, free_run in *.
    rewrite (for_range_Raise _ (S (length (cdyn_trace cfg)))
               (length (time cfg)) _ IndexError Hlen); [reflexivity|].
    rewrite for_range_snoc, Hsf. cbn [bind]. unfold free_iter.
    rewrite getitem_out_of_range by lia. reflexivity.
  - intros Hne.
    destruct (dvfs_run_upto (length (cdyn_trace cfg)) Hz Hne (le_n _))
      as (sd & Hsd).
    split; [eauto|].
    unfold simulate_dvfs_strict. unfold dvfs_run at 1.
    rewrite (for_range_Raise _ (S (length (cdyn_trace cfg)))
               (length (time cfg)) _ IndexError Hlen); [reflexivity|].
    fold (dvfs_run cfg (S (length (cdyn_trace cfg)))).
    rewrite dvfs_run_S, Hsd. cbn [bind]. unfold dvfs_iter.
    pose proof (dvfs_run_in_range cfg _ sd Hne Hsd) as Hidx.
    destruct (getitem_in_range (voltages cfg)
                (dvfs_select cfg (T_cpu (temps sd)) (voltage_index sd)))
      as (volt & ->).
    { pose proof (dvfs_select_in_range cfg (T_cpu (temps sd)) _ Hidx). lia. }
    cbn [bind]. rewrite getitem_out_of_range by lia. reflexivity.
Qed.

(** X5.  A zero resistance or capacitance raises [ZeroDivisionError] in
    the first iteration of either simulation, as soon as there is a grid
    point and a sample (and, for the controlled one, a catalog) to get
    there. *)
Theorem zero_divisor_raises_ZeroDivisionError :
  no_zero_divisor cfg = false ->
  time cfg <> [] -> cdyn_trace cfg <> [] ->
  simulate_free_running cfg = Raise ZeroDivisionError
  /\ (voltages cfg <> [] ->
      simulate_dvfs_strict cfg = Raise ZeroDivisionError).
Proof.
  intros Hz Ht Htr.
  destruct (getitem_in_range (cdyn_trace cfg) 0) as (a & Ha).
  { destruct (cdyn_trace cfg); [congruence | cbn [length]; lia]. }
  split.
  - unfold simulate_free_running, free_run.
    rewrite (for_range_Raise _ 1 (length (time cfg)) _ ZeroDivisionError
               (grid_has_a_point Ht)); [reflexivity|].
    cbn [seq for_range]. unfold free_iter. cbn [Z.of_nat].
    rewrite Ha. cbn [bind].
    rewrite thermal_update_zero_divisor by exact Hz. reflexivity.
  - intros Hne. unfold simulate_dvfs_strict, dvfs_run.
    rewrite (for_range_Raise _ 1 (length (time cfg)) _ ZeroDivisionError
               (grid_has_a_point Ht)); [reflexivity|].
    cbn [seq for_range]. unfold dvfs_iter. cbn [Z.of_nat].
    destruct (getitem_in_range (voltages cfg)
                (dvfs_select cfg (T_cpu (temps (dvfs_init cfg)))
                             (voltage_index (dvfs_init cfg))))
      as (volt & ->).
    { pose proof (catalog_length_pos cfg Hne) as HN.
      pose proof (dvfs_select_in_range cfg (T_cpu (temps (dvfs_init cfg)))
                    (voltage_index (dvfs_init cfg))) as Hsel.
      cbn [dvfs_init voltage_index] in *. lia. }
    cbn [bind]. rewrite Ha. cbn [bind].
    rewrite thermal_update_zero_divisor by exact Hz. reflexivity.
Qed.

End LoopErrors.

(** ** What the simulations read *)

Lemma for_range_ext_in {St : Type} (b1 b2 : nat -> St -> result St)
      (rng : list nat) :
  (forall i st, In i rng -> b1 i st = b2 i st) ->
  forall st, for_range b1 rng st = for_range b2 rng st.
Proof.
  induction rng as [|i rng IH]; intros Hext st; [reflexivity|].
  cbn [for_range]. rewrite (Hext i st (or_introl eq_refl)).
  destruct (b2 i st) as [st'|e]; cbn [bind]; [|reflexivity].
  apply IH. intros j st'' Hj. apply Hext. right. exact Hj.
Qed.

Lemma getitem_firstn {A : Type} (l : list A) (n i : nat) :
  (i < n)%nat ->
  getitem (firstn n l) (Z.of_nat i) = getitem l (Z.of_nat i).
Proof.
  intros Hi. unfold getitem. cbv zeta.
  destruct (Z.ltb_spec (Z.of_nat i) 0); [lia|].
  rewrite length_firstn, nth_error_firstn, Nat2Z.id.
  destruct (Nat.ltb_spec i n); [|lia].
  destruct (Z.leb_spec 0 (Z.of_nat i)); [|lia]. cbn [andb].
  destruct (Z.ltb_spec (Z.of_nat i) (Z.of_nat (Nat.min n (length l))));
    destruct (Z.ltb_spec (Z.of_nat i) (Z.of_nat (length l)));
    try reflexivity; lia.
Qed.

Section Reads.

Context {F : Type} {num : Num F}.
Local Open Scope num_scope.

Variables c1 c2 : Config F.
Hypothesis Hnet : same_network c1 c2.

Lemma thermal_update_same_network (P : F) (s : Temps F) :
  thermal_update c1 P s = thermal_update c2 P s.
Proof.
  destruct Hnet as (Hdt & H1 & H2 & H3 & H4 & H5 & Hc1 & Hc2 & Hc3 & Hc4
                    & Hamb & _ & _).
  unfold thermal_update, upd_T_cpu, upd_T_soc, upd_T_pkg, upd_T_board.
  rewrite Hdt, H1, H2, H3, H4, H5, Hc1, Hc2, Hc3, Hc4, Hamb. reflexivity.
Qed.

Lemma same_sample (n i : nat) :
  same_workload n c1 c2 -> (i < n)%nat ->
  getitem (cdyn_trace c1) (Z.of_nat i) = getitem (cdyn_trace c2) (Z.of_nat i).
Proof.
  intros Hw Hi.
  rewrite <- (getitem_firstn (cdyn_trace c1) n i Hi),
          <- (getitem_firstn (cdyn_trace c2) n i Hi).
  unfold same_workload in Hw. rewrite Hw. reflexivity.
Qed.

(** X6.  The free-running simulation reads the thermal network, the
    nominal frequency and the leakage, the length of the grid and the
    first [len(time)] samples of the workload, and nothing else: not the
    grid's values, not the samples beyond the grid, not the catalog, the
    thresholds or the nominal voltage. *)
Theorem free_running_reads :
  length (time c1) = length (time c2) ->
  same_workload (length (time c1)) c1 c2 ->
  simulate_free_running c1 = simulate_free_running c2.
Proof.
  intros Hlen Hw. unfold simulate_free_running, free_run.
  rewrite <- Hlen.
  assert (Hinit : free_init c1 = free_init c2).
  { unfold free_init, init_temps.
    destruct Hnet as (_ & _ & _ & _ & _ & _ & _ & _ & _ & _ & -> & _).
    reflexivity. }
  rewrite Hinit.
  rewrite (for_range_ext_in (free_iter c1) (free_iter c2)); [reflexivity|].
  intros i st Hi. apply in_seq in Hi. unfold free_iter.
  rewrite (same_sample _ i Hw) by lia.
  destruct (getitem (cdyn_trace c2) (Z.of_nat i)) as [a|e]; [|reflexivity].
  cbn [bind]. unfold free_power.
  destruct Hnet as (_ & _ & _ & _ & _ & _ & _ & _ & _ & _ & _ & -> & ->).
  rewrite thermal_update_same_network. reflexivity.
Qed.

(** X7.  The controlled simulation reads, besides, the catalog, the two
    thresholds and the nominal voltage; it too sees the grid only
    through its length and ignores the samples beyond it. *)
Theorem controlled_reads :
  same_controller c1 c2 ->
  length (time c1) = length (time c2) ->
  same_workload (length (time c1)) c1 c2 ->
  simulate_dvfs_strict c1 = simulate_dvfs_strict c2.
Proof.
  intros (Hv & Hlim & Hhys & Hcat) Hlen Hw.
  unfold simulate_dvfs_strict, dvfs_run.
  rewrite <- Hlen.
  assert (Hinit : dvfs_init c1 = dvfs_init c2).
  { unfold dvfs_init, init_temps.
    destruct Hnet as (_ & _ & _ & _ & _ & _ & _ & _ & _ & _ & -> & _).
    reflexivity. }
  rewrite Hinit.
  rewrite (for_range_ext_in (dvfs_iter c1) (dvfs_iter c2)); [reflexivity|].
  intros i st Hi. apply in_seq in Hi. unfold dvfs_iter, dvfs_select.
  rewrite Hlim, Hhys, Hcat.
  destruct (getitem (voltages c2) _) as [volt|e]; [|reflexivity].
  cbn [bind]. rewrite (same_sample _ i Hw) by lia.
  destruct (getitem (cdyn_trace c2) (Z.of_nat i)) as [a|e]; [|reflexivity].
  cbn [bind]. unfold dvfs_power, dvfs_freq. rewrite Hv.
  destruct Hnet as (_ & _ & _ & _ & _ & _ & _ & _ & _ & _ & _ & -> & ->).
  rewrite thermal_update_same_network. reflexivity.
Qed.

End Reads.

(** ** The controller along a run *)

Lemma last_cons_default {A : Type} (x d : A) (l : list A) :
  last (x :: l) d = last l x.
Proof.
  revert x d; induction l as [|y l IH]; intros x d; [reflexivity|].
  change (last (x :: y :: l) d) with (last (y :: l) d).
  rewrite !IH. reflexivity.
Qed.

Lemma firstn_own_length {A : Type} (l t : list A) (k : nat) :
  length l = k -> l = firstn k (l ++ t).
Proof.
  intros <-. rewrite firstn_app, Nat.sub_diag, firstn_all, firstn_O,
    app_nil_r. reflexivity.
Qed.

Section AlongTheRun.

Context {F : Type} {num : Num F}.
Local Open Scope num_scope.

Variable cfg : Config F.

Lemma index_trajectory_app (idx : Z) (l1 l2 : list F) :
  index_trajectory cfg idx (l1 ++ l2)
  = index_trajectory cfg idx l1
    ++ index_trajectory cfg (last (index_trajectory cfg idx l1) idx) l2.
Proof.
  revert idx; induction l1 as [|T l1 IH]; intros idx; [reflexivity|].
  cbn [app index_trajectory]. rewrite IH, last_cons_default. reflexivity.
Qed.

(** X8.  The controller needs one step per operating point: after [k]
    iterations the index is at most [k], so the operating point [j] is
    never in use before step [j]. *)
Theorem index_at_most_step_count (k : nat) (st : DvfsState F) :
  dvfs_run cfg k = Ok st -> (0 <= voltage_index st <= Z.of_nat k)%Z.
Proof.
  revert st; induction k as [|k IH]; intros st H.
  - injection H as <-. cbn. lia.
  - pose proof H as HS. apply dvfs_run_step in H as (st0 & H0 & _).
    rewrite (dvfs_run_index_step cfg k st0 st H0 HS).
    specialize (IH st0 H0).
    destruct (dvfs_select_cases cfg (T_cpu (temps st0)) (voltage_index st0))
      as [(_ & _ & ->)|[(_ & ? & ->)| ->]]; lia.
Qed.

Lemma dvfs_run_extends (k j : nat) (st st' : DvfsState F) :
  dvfs_run cfg k = Ok st -> dvfs_run cfg (k + j) = Ok st' ->
  exists tT tf tv,
    T_cpu_hist st' = T_cpu_hist st ++ tT
    /\ freq_hist st' = freq_hist st ++ tf
    /\ volt_hist st' = volt_hist st ++ tv.
Proof.
  intros Hk. revert st'. induction j as [|j IH]; intros st' Hj.
  - rewrite Nat.add_0_r, Hk in Hj. injection Hj as <-.
    exists [], [], []. rewrite !app_nil_r. auto.
  - rewrite Nat.add_succ_r in Hj.
    apply dvfs_run_step in Hj as (st1 & H1 & Hi).
    destruct (IH st1 H1) as (tT & tf & tv & ET & Ef & Ev).
    apply dvfs_iter_Ok in Hi as (volt & a & _ & _ & _ & _ & HT & Hf & Hv).
    exists (tT ++ [T_cpu (temps st')]), (tf ++ [dvfs_freq cfg volt]),
      (tv ++ [volt]).
    rewrite HT, Hf, Hv, ET, Ef, Ev, !app_assoc. auto.
Qed.

(** X9.  The three recorded arrays only grow: what they hold after [k]
    iterations is the first [k] entries of what they hold after any later
    iteration, and so of what the simulation returns. *)
Theorem histories_are_append_only (k n : nat) (st st' : DvfsState F) :
  (k <= n)%nat ->
  dvfs_run cfg k = Ok st -> dvfs_run cfg n = Ok st' ->
  T_cpu_hist st = firstn k (T_cpu_hist st')
  /\ freq_hist st = firstn k (freq_hist st')
  /\ volt_hist st = firstn k (volt_hist st').
Proof.
  intros Hkn Hk Hn.
  replace n with (k + (n - k))%nat in Hn by lia.
  destruct (dvfs_run_extends k (n - k) st st' Hk Hn)
    as (tT & tf & tv & -> & -> & ->).
  destruct (dvfs_run_hist cfg k st Hk) as (Hf & _ & Hlv & HlT).
  assert (Hlf : length (freq_hist st) = k)
    by (rewrite Hf, length_map; exact Hlv).
  auto using firstn_own_length.
Qed.

Lemma dvfs_run_current_temperature (k : nat) (st : DvfsState F) :
  dvfs_run cfg k = Ok st ->
  T_cpu (temps st) = last (T_cpu_hist st) (T_ambient cfg).
Proof.
  destruct k as [|k]; intros H.
  - injection H as <-. reflexivity.
  - apply dvfs_run_step in H as (st0 & _ & Hi).
    apply dvfs_iter_Ok in Hi as (volt & a & _ & _ & _ & _ & HT & _).
    rewrite HT, last_last. reflexivity.
Qed.

(** The temperatures the controller has seen once [k] iterations are
    done: the ambient, then every recorded temperature but the last. *)
Lemma seen_after_iteration (st0 st : DvfsState F) (T : F) :
  T_cpu (temps st0) = last (T_cpu_hist st0) (T_ambient cfg) ->
  T_cpu_hist st = T_cpu_hist st0 ++ [T] ->
  removelast (T_ambient cfg :: T_cpu_hist st)
  = removelast (T_ambient cfg :: T_cpu_hist st0) ++ [T_cpu (temps st0)].
Proof.
  intros Hcur ->. rewrite app_comm_cons, removelast_last.
  rewrite (app_removelast_last (T_ambient cfg)
             (l := T_ambient cfg :: T_cpu_hist st0)) at 1 by discriminate.
  rewrite last_cons_default, <- Hcur. reflexivity.
Qed.

Lemma dvfs_run_index_is_last (k : nat) (st : DvfsState F) :
  dvfs_run cfg k = Ok st ->
  voltage_index st
  = last (index_trajectory cfg 0
            (removelast (T_ambient cfg :: T_cpu_hist st))) 0%Z.
Proof.
  revert st; induction k as [|k IH]; intros st H;
    [injection H as <-; reflexivity|].
  apply dvfs_run_step in H as (st0 & H0 & Hi).
  pose proof (dvfs_run_current_temperature k st0 H0) as Hcur.
  apply dvfs_iter_Ok in Hi as (volt & a & _ & _ & _ & Hidx & HT & _).
  rewrite (seen_after_iteration st0 st _ Hcur HT).
  rewrite index_trajectory_app, <- (IH st0 H0).
  cbn [index_trajectory]. rewrite last_last. exact Hidx.
Qed.

Lemma dvfs_run_voltages_follow (k : nat) (st : DvfsState F) :
  dvfs_run cfg k = Ok st ->
  map (getitem (voltages cfg))
      (index_trajectory cfg 0
         (removelast (T_ambient cfg :: T_cpu_hist st)))
  = map Ok (volt_hist st).
Proof.
  revert st; induction k as [|k IH]; intros st H;
    [injection H as <-; reflexivity|].
  apply dvfs_run_step in H as (st0 & H0 & Hi).
  pose proof (dvfs_run_current_temperature k st0 H0) as Hcur.
  apply dvfs_iter_Ok in Hi as (volt & a & Hv & _ & _ & _ & HT & _ & HV).
  rewrite (seen_after_iteration st0 st _ Hcur HT), HV.
  rewrite index_trajectory_app, !map_app, (IH st0 H0),
    <- (dvfs_run_index_is_last k st0 H0).
  cbn [index_trajectory map]. rewrite Hv. reflexivity.
Qed.

(** X10.  The controller acts on the recorded core temperatures with one
    step of delay.  After any number of iterations, the temperatures it
    has seen are the ambient temperature followed by every recorded
    temperature but the last; the recorded voltages are the catalog
    entries at the indices the hysteresis rule goes through on them, the
    current index is the last of these, and the current core temperature
    is the last one recorded. *)
Theorem controller_follows_recorded_temperatures (k : nat)
        (st : DvfsState F) :
  dvfs_run cfg k = Ok st ->
  map (getitem (voltages cfg))
      (index_trajectory cfg 0
         (removelast (T_ambient cfg :: T_cpu_hist st)))
  = map Ok (volt_hist st)
  /\ voltage_index st
     = last (index_trajectory cfg 0
               (removelast (T_ambient cfg :: T_cpu_hist st))) 0%Z
  /\ T_cpu (temps st) = last (T_cpu_hist st) (T_ambient cfg).
Proof.
  intros H. split; [|split].
  - exact (dvfs_run_voltages_follow k st H).
  - exact (dvfs_run_index_is_last k st H).
  - exact (dvfs_run_current_temperature k st H).
Qed.

End AlongTheRun.

(** ** Sustained heat and sustained cooling *)

Section Sustained.

Context {F : Type} {num : Num F} {ord : NumOrder F}.
Local Open Scope num_scope.
Local Open Scope Z_scope.

Variable cfg : Config F.
Hypothesis Hthresholds :
  (dvfs_hysteresis cfg <? dvfs_temp_limit cfg)%num = true.

Lemma below_lower_steps_up (T : F) (idx : Z) :
  (T <? dvfs_hysteresis cfg)%num = true ->
  dvfs_select cfg T idx = if idx >? 0 then idx - 1 else idx.
Proof.
  intros HT. unfold dvfs_select.
  rewrite (nltb_asym _ _ (nltb_trans _ _ _ HT Hthresholds)), HT.
  reflexivity.
Qed.

(** X11.  Under sustained heat the controller walks to the last operating
    point and stays there: from an index [idx] within the catalog, after
    [n] observations above the upper threshold the index is
    [min (idx + n) (N - 1)]. *)
Theorem sustained_heat_saturates (obs : list F) :
  forall idx : Z,
    idx <= Z.of_nat (length (voltages cfg)) - 1 ->
    Forall (fun T => (T >? dvfs_temp_limit cfg)%num = true) obs ->
    last (index_trajectory cfg idx obs) idx
    = Z.min (idx + Z.of_nat (length obs))
            (Z.of_nat (length (voltages cfg)) - 1).
Proof.
  induction obs as [|T obs IH]; intros idx Hidx Hobs.
  - cbn [index_trajectory last length Z.of_nat]. lia.
  - inversion Hobs as [|? ? HT Hrest]; subst.
    cbn [index_trajectory]. rewrite last_cons_default.
    rewrite (above_limit_steps_down cfg T idx Hthresholds HT).
    destruct (Z.ltb_spec idx (Z.of_nat (length (voltages cfg)) - 1)).
    + rewrite IH by (try assumption; lia). cbn [length].
      rewrite Nat2Z.inj_succ. lia.
    + rewrite IH by (try assumption; lia). cbn [length].
      rewrite Nat2Z.inj_succ. lia.
Qed.

(** X12.  Under sustained cooling the controller walks back to the first
    operating point and stays there: from an index [idx >= 0], after [n]
    observations strictly below the lower threshold the index is
    [max (idx - n) 0]. *)
Theorem sustained_cooling_recovers (obs : list F) :
  forall idx : Z,
    0 <= idx ->
    Forall (fun T => (T <? dvfs_hysteresis cfg)%num = true) obs ->
    last (index_trajectory cfg idx obs) idx
    = Z.max (idx - Z.of_nat (length obs)) 0.
Proof.
  induction obs as [|T obs IH]; intros idx Hidx Hobs.
  - cbn [index_trajectory last length Z.of_nat]. lia.
  - inversion Hobs as [|? ? HT Hrest]; subst.
    cbn [index_trajectory]. rewrite last_cons_default.
    rewrite (below_lower_steps_up T idx HT).
    destruct (Z.gtb_spec idx 0).
    + rewrite IH by (try assumption; lia). cbn [length].
      rewrite Nat2Z.inj_succ. lia.
    + rewrite IH by (try assumption; lia). cbn [length].
      rewrite Nat2Z.inj_succ. lia.
Qed.

End Sustained.

(** ** Heat paths of the network *)

Section HeatPaths.

Context {F : Type} {num : Num F}.
Local Open Scope num_scope.

Variable cfg : Config F.

(** X13.  Heat moves along the links of the network only, one link per
    step.  In one update the injected power reaches the core and no other
    node; the package and the board are driven by the SoC and the ambient
    alone, the core by the SoC and the power, and only the SoC by all
    three neighbours: two updates from temperatures that agree on a
    node and its neighbours give that node the same new temperature. *)
Theorem heat_follows_the_links (P P' : F) (s s' r r' : Temps F) :
  thermal_update cfg P s = Ok r ->
  thermal_update cfg P' s' = Ok r' ->
  (P = P' -> T_cpu s = T_cpu s' -> T_soc s = T_soc s' ->
   T_cpu r = T_cpu r')
  /\ (T_soc s = T_soc s' -> T_pkg s = T_pkg s' -> T_pkg r = T_pkg r')
  /\ (T_soc s = T_soc s' -> T_board s = T_board s' ->
      T_board r = T_board r')
  /\ (T_cpu s = T_cpu s' -> T_soc s = T_soc s' ->
      T_pkg s = T_pkg s' -> T_board s = T_board s' ->
      T_soc r = T_soc r').
Proof.
  intros H H'.
  apply thermal_update_inv in H as (Hc & Hs & Hp & Hb).
  apply thermal_update_inv in H' as (Hc' & Hs' & Hp' & Hb').
  repeat split; intros; congruence.
Qed.

End HeatPaths.

(** ** Not-a-number in binary64 *)

Lemma SFeqb_refl (s : spec_float) :
  SFeqb s s = match s with S754_nan => false | _ => true end.
Proof.
  unfold SFeqb. rewrite SFcompare_key.
  destruct (SFkey s) as [[[a b] c]|] eqn:E.
  - cbn [key_compare lex3]. rewrite !Z.compare_refl.
    destruct s; [reflexivity | reflexivity | discriminate E | reflexivity].
  - destruct s as [?|[]| |[] ? ?]; try discriminate E. reflexivity.
Qed.

Lemma float_is_nan_spec (x : float) :
  is_nan x = true <-> Prim2SF x = S754_nan.
Proof.
  unfold is_nan. rewrite eqb_spec, SFeqb_refl.
  destruct (Prim2SF x); cbn [negb]; split; congruence.
Qed.

Lemma float_nan_compare (x y : float) :
  is_nan x = true -> (x <? y)%float = false /\ (y <? x)%float = false.
Proof.
  intros H. apply float_is_nan_spec in H.
  rewrite !ltb_spec, H. unfold SFltb, SFcompare.
  split; [reflexivity|]. destruct (Prim2SF y); reflexivity.
Qed.

Lemma float_nan_add_l (x y : float) :
  is_nan x = true -> is_nan (x + y)%float = true.
Proof.
  rewrite !float_is_nan_spec, add_spec. intros ->. reflexivity.
Qed.

Lemma float_nan_add_r (x y : float) :
  is_nan y = true -> is_nan (x + y)%float = true.
Proof.
  rewrite !float_is_nan_spec, add_spec. intros ->.
  destruct (Prim2SF x) as [?|[]| |]; reflexivity.
Qed.

Lemma float_nan_sub_l (x y : float) :
  is_nan x = true -> is_nan (x - y)%float = true.
Proof.
  rewrite !float_is_nan_spec, sub_spec. intros ->. reflexivity.
Qed.

Lemma float_nan_mul_l (x y : float) :
  is_nan x = true -> is_nan (x * y)%float = true.
Proof.
  rewrite !float_is_nan_spec, mul_spec. intros ->. reflexivity.
Qed.

Lemma float_nan_mul_r (x y : float) :
  is_nan y = true -> is_nan (x * y)%float = true.
Proof.
  rewrite !float_is_nan_spec, mul_spec. intros ->.
  destruct (Prim2SF x) as [?|[]| |]; reflexivity.
Qed.

Section NotANumber.

Variable cfg : Config float.

Lemma nan_keeps_index (T : float) (idx : Z) :
  is_nan T = true -> dvfs_select cfg T idx = idx.
Proof.
  intros H. unfold dvfs_select. cbn [nltb float_Num].
  destruct (float_nan_compare T (dvfs_temp_limit cfg) H) as [_ ->].
  destruct (float_nan_compare T (dvfs_hysteresis cfg) H) as [-> _].
  reflexivity.
Qed.

Lemma nan_power_nan_core (P : float) (s r : Temps float) :
  is_nan P = true -> thermal_update cfg P s = Ok r ->
  is_nan (T_cpu r) = true.
Proof.
  intros HP H. apply thermal_update_inv in H as (-> & _).
  cbn [nadd nmul nsub ndiv float_Num].
  apply float_nan_add_r, float_nan_mul_r, float_nan_sub_l, HP.
Qed.

Lemma nan_core_stays_nan (P : float) (s r : Temps float) :
  is_nan (T_cpu s) = true -> thermal_update cfg P s = Ok r ->
  is_nan (T_cpu r) = true.
Proof.
  intros Hs H. apply thermal_update_inv in H as (-> & _).
  cbn [nadd float_Num]. apply float_nan_add_l, Hs.
Qed.

(** X14.  A core temperature that is not a number is never left again,
    and it freezes the controller: from the iteration at which [T_cpu] is
    NaN on, every later iteration leaves it NaN and leaves the operating
    point index where it was (both comparisons of lines 65 and 67 are
    false on NaN). *)
Theorem nan_core_freezes_controller (k n : nat) (st st' : DvfsState float) :
  (k <= n)%nat ->
  dvfs_run cfg k = Ok st -> is_nan (T_cpu (temps st)) = true ->
  dvfs_run cfg n = Ok st' ->
  is_nan (T_cpu (temps st')) = true
  /\ voltage_index st' = voltage_index st.
Proof.
  intros Hkn Hk Hnan. revert st'.
  induction Hkn as [|n Hkn IH]; intros st' Hn.
  - rewrite Hk in Hn. injection Hn as <-. auto.
  - pose proof Hn as HS. apply dvfs_run_step in Hn as (st1 & H1 & Hi).
    destruct (IH st1 H1) as [Hnan1 Hidx1].
    apply dvfs_iter_Ok in Hi as (volt & a & _ & _ & Hup & Hidx & _).
    split.
    + exact (nan_core_stays_nan _ _ _ Hnan1 Hup).
    + cbv zeta in Hidx. rewrite Hidx, nan_keeps_index by exact Hnan1.
      exact Hidx1.
Qed.

(** X15.  A workload sample that is not a number makes the core
    temperature NaN in the very iteration that reads it, in both
    simulations. *)
Theorem nan_sample_poisons_core (i : nat) (a : float) :
  getitem (cdyn_trace cfg) (Z.of_nat i) = Ok a -> is_nan a = true ->
  (forall sf sf', free_iter cfg i sf = Ok sf' ->
                  is_nan (T_cpu (free_temps sf')) = true)
  /\ (forall sd sd', dvfs_iter cfg i sd = Ok sd' ->
                     is_nan (T_cpu (temps sd')) = true).
Proof.
  intros Ha Hnan. split.
  - intros sf sf' H. apply free_iter_Ok in H as (a' & Ha' & Hup & _).
    rewrite Ha in Ha'. injection Ha' as <-.
    refine (nan_power_nan_core _ _ _ _ Hup).
    unfold free_power. cbn [nadd nmul float_Num].
    apply float_nan_add_l, float_nan_mul_l, Hnan.
  - intros sd sd' H.
    apply dvfs_iter_Ok in H as (volt & a' & _ & Ha' & Hup & _).
    rewrite Ha in Ha'. injection Ha' as <-.
    refine (nan_power_nan_core _ _ _ _ Hup).
    unfold dvfs_power. cbn [nadd nmul float_Num].
    apply float_nan_add_l, float_nan_mul_l, float_nan_mul_l, Hnan.
Qed.

End NotANumber.

(** ** The operating points in use *)

(** X16.  With the script's catalog the controlled mode never runs above
    the nominal operating point nor below the last one: every recorded
    voltage lies between 0.55 and 0.75, every recorded frequency between
    [f_nom * (0.55 / v_nom)] and [f_nom], whatever the workload. *)
Theorem operating_points_within_catalog (trace : list float) (k : nat)
        (st : DvfsState float) :
  dvfs_run (default_config trace) k = Ok st ->
  Forall (fun volt => (0.55 <=? volt)%float = true
                      /\ (volt <=? v_nom (default_config trace))%float = true)
         (volt_hist st)
  /\ Forall (fun freq =>
               (dvfs_freq (default_config trace) 0.55 <=? freq)%float = true
               /\ (freq <=? f_nom (default_config trace))%float = true)
            (freq_hist st).
Proof.
  intros H.
  destruct (dvfs_run_hist (default_config trace) k st H) as (Hf & Hv & _).
  rewrite Hf. split.
  - eapply Forall_impl; [|exact Hv].
    intros volt Hin. cbn [voltages default_config In] in Hin.
    destruct Hin as [<-|[<-|[<-|[<-|[<-|[]]]]]]; split; reflexivity.
  - apply Forall_map. eapply Forall_impl; [|exact Hv].
    intros volt Hin. cbn [voltages default_config In] in Hin.
    destruct Hin as [<-|[<-|[<-|[<-|[<-|[]]]]]]; split; reflexivity.
Qed.

(** ** The further properties on concrete runs *)

Lemma simulations_fill_the_grid_witness :
  exists T_free T_dvfs freq_dvfs volt_dvfs,
    simulate_free_running (default_config sustained_load) = Ok T_free
    /\ simulate_dvfs_strict (default_config sustained_load)
       = Ok (T_dvfs, freq_dvfs, volt_dvfs)
    /\ length T_free = 1000%nat
    /\ length T_dvfs = 1000%nat
    /\ length freq_dvfs = 1000%nat
    /\ length volt_dvfs = 1000%nat.
Proof.
  apply (simulations_fill_the_grid (default_config sustained_load)).
  vm_compute. reflexivity.
Defined.

Lemma empty_catalog_raises_IndexError_witness :
  simulate_dvfs_strict empty_catalog_config = Raise IndexError.
Proof.
  apply (empty_catalog_raises_IndexError empty_catalog_config);
    [reflexivity | discriminate].
Defined.

Lemma empty_catalog_fails_after_free_run_witness :
  (exists T_free, simulate_free_running empty_catalog_config = Ok T_free
                  /\ length T_free = 1000%nat)
  /\ run_both empty_catalog_config = Raise IndexError.
Proof.
  apply (empty_catalog_fails_after_free_run empty_catalog_config).
  - reflexivity.
  - discriminate.
  - vm_compute. reflexivity.
  - apply Nat.leb_le. vm_compute. reflexivity.
Defined.

Lemma short_workload_raises_IndexError_witness :
  (exists st, free_run short_workload_config 10 = Ok st)
  /\ simulate_free_running short_workload_config = Raise IndexError
  /\ (voltages short_workload_config <> [] ->
      (exists st, dvfs_run short_workload_config 10 = Ok st)
      /\ simulate_dvfs_strict short_workload_config = Raise IndexError).
Proof.
  apply (short_workload_raises_IndexError short_workload_config).
  - vm_compute. reflexivity.
  - apply Nat.ltb_lt. vm_compute. reflexivity.
Defined.

Lemma zero_divisor_raises_ZeroDivisionError_witness :
  simulate_free_running zero_R1_config = Raise ZeroDivisionError
  /\ (voltages zero_R1_config <> [] ->
      simulate_dvfs_strict zero_R1_config = Raise ZeroDivisionError).
Proof.
  apply (zero_divisor_raises_ZeroDivisionError zero_R1_config).
  - vm_compute. reflexivity.
  - discriminate.
  - discriminate.
Defined.

Lemma free_running_reads_witness :
  simulate_free_running (default_config sustained_load)
  = simulate_free_running (with_voltages [] other_grid_config).
Proof.
  apply (free_running_reads (default_config sustained_load)
                            (with_voltages [] other_grid_config)).
  - repeat split.
  - reflexivity.
  - vm_compute. reflexivity.
Defined.

Lemma controlled_reads_witness :
  simulate_dvfs_strict (default_config sustained_load)
  = simulate_dvfs_strict other_grid_config.
Proof.
  apply (controlled_reads (default_config sustained_load) other_grid_config).
  - repeat split.
  - repeat split.
  - reflexivity.
  - vm_compute. reflexivity.
Defined.

Lemma index_at_most_step_count_witness :
  exists st : DvfsState float,
    dvfs_run (default_config sustained_load) 42 = Ok st
    /\ (0 <= voltage_index st <= 42)%Z.
Proof.
  eexists. split; [vm_compute; reflexivity|].
  apply (index_at_most_step_count (default_config sustained_load) 42).
  vm_compute. reflexivity.
Defined.

Lemma histories_are_append_only_witness :
  exists st st' : DvfsState float,
    dvfs_run (default_config sustained_load) 40 = Ok st
    /\ dvfs_run (default_config sustained_load) 45 = Ok st'
    /\ T_cpu_hist st = firstn 40 (T_cpu_hist st')
    /\ freq_hist st = firstn 40 (freq_hist st')
    /\ volt_hist st = firstn 40 (volt_hist st').
Proof.
  eexists; eexists.
  split; [vm_compute; reflexivity|].
  split; [vm_compute; reflexivity|].
  apply (histories_are_append_only (default_config sustained_load) 40 45);
    [apply Nat.leb_le; reflexivity
    | vm_compute; reflexivity | vm_compute; reflexivity].
Defined.

Lemma controller_follows_recorded_temperatures_witness :
  exists st : DvfsState float,
    dvfs_run (default_config sustained_load) 45 = Ok st
    /\ map (getitem (voltages (default_config sustained_load)))
           (index_trajectory (default_config sustained_load) 0
              (removelast (T_ambient (default_config sustained_load)
                           :: T_cpu_hist st)))
       = map Ok (volt_hist st)
    /\ voltage_index st
       = last (index_trajectory (default_config sustained_load) 0
                 (removelast (T_ambient (default_config sustained_load)
                              :: T_cpu_hist st))) 0%Z
    /\ T_cpu (temps st)
       = last (T_cpu_hist st) (T_ambient (default_config sustained_load)).
Proof.
  eexists. split; [vm_compute; reflexivity|].
  apply (controller_follows_recorded_temperatures
           (default_config sustained_load) 45).
  vm_compute. reflexivity.
Defined.

Lemma sustained_heat_saturates_witness :
  last (index_trajectory (default_config sustained_load) 1
          [86.0; 90.0; 100.0; 95.0; 88.0; 99.0]%float) 1%Z
  = Z.min (1 + 6) (5 - 1).
Proof.
  apply (@sustained_heat_saturates float _ float_NumOrder
           (default_config sustained_load) eq_refl
           [86.0; 90.0; 100.0; 95.0; 88.0; 99.0]%float 1%Z).
  - vm_compute. discriminate.
  - repeat constructor.
Defined.

Lemma sustained_cooling_recovers_witness :
  last (index_trajectory (default_config sustained_load) 2
          [70.0; 60.0; 79.0]%float) 2%Z
  = Z.max (2 - 3) 0.
Proof.
  apply (@sustained_cooling_recovers float _ float_NumOrder
           (default_config sustained_load) eq_refl
           [70.0; 60.0; 79.0]%float 2%Z).
  - lia.
  - repeat constructor.
Defined.

Lemma heat_follows_the_links_witness :
  exists r r' : Temps float,
    thermal_update (default_config sustained_load) 1.85%float
                   {| T_cpu := 60.0; T_soc := 30.0;
                      T_board := 25.0; T_pkg := 26.0 |}%float = Ok r
    /\ thermal_update (default_config sustained_load) 0.5%float
                      {| T_cpu := 90.0; T_soc := 30.0;
                         T_board := 27.0; T_pkg := 26.0 |}%float = Ok r'
    /\ T_pkg r = T_pkg r'.
Proof.
  destruct (thermal_update (default_config sustained_load) 1.85%float
              {| T_cpu := 60.0; T_soc := 30.0;
                 T_board := 25.0; T_pkg := 26.0 |}%float)
    as [r|e] eqn:E; [|vm_compute in E; discriminate E].
  destruct (thermal_update (default_config sustained_load) 0.5%float
              {| T_cpu := 90.0; T_soc := 30.0;
                 T_board := 27.0; T_pkg := 26.0 |}%float)
    as [r'|e] eqn:E'; [|vm_compute in E'; discriminate E'].
  exists r, r'. split; [reflexivity|]. split; [reflexivity|].
  exact (proj1 (proj2 (heat_follows_the_links
                         (default_config sustained_load) _ _ _ _ _ _ E E'))
               eq_refl eq_refl).
Defined.

Lemma nan_core_freezes_controller_witness :
  exists st st' : DvfsState float,
    dvfs_run poisoned_config 1 = Ok st
    /\ dvfs_run poisoned_config 1000 = Ok st'
    /\ is_nan (T_cpu (temps st')) = true
    /\ voltage_index st' = voltage_index st.
Proof.
  eexists; eexists.
  split; [vm_compute; reflexivity|].
  split; [vm_compute; reflexivity|].
  apply (nan_core_freezes_controller poisoned_config 1 1000);
    [apply Nat.leb_le; vm_compute; reflexivity
    | vm_compute; reflexivity | vm_compute; reflexivity
    | vm_compute; reflexivity].
Defined.

Lemma nan_sample_poisons_core_witness :
  exists sd' : DvfsState float,
    dvfs_iter poisoned_config 0 (dvfs_init poisoned_config) = Ok sd'
    /\ is_nan (T_cpu (temps sd')) = true.
Proof.
  destruct (dvfs_iter poisoned_config 0 (dvfs_init poisoned_config))
    as [sd'|e] eqn:E; [|vm_compute in E; discriminate E].
  exists sd'. split; [reflexivity|].
  exact (proj2 (nan_sample_poisons_core poisoned_config 0 nan
                  eq_refl eq_refl)
               (dvfs_init poisoned_config) sd' E).
Defined.

Lemma operating_points_within_catalog_witness :
  exists st : DvfsState float,
    dvfs_run (default_config sustained_load) 45 = Ok st
    /\ Forall (fun volt =>
                 (0.55 <=? volt)%float = true
                 /\ (volt <=? v_nom (default_config sustained_load))%float
                    = true)
              (volt_hist st)
    /\ Forall (fun freq =>
                 (dvfs_freq (default_config sustained_load) 0.55 <=? freq)%float
                 = true
                 /\ (freq <=? f_nom (default_config sustained_load))%float
                    = true)
              (freq_hist st).
Proof.
  eexists. split; [vm_compute; reflexivity|].
  apply (operating_points_within_catalog sustained_load 45).
  vm_compute. reflexivity.
Defined.

(** ** Up to the first crossing *)

Lemma for_range_prefix_Ok {St : Type} (body : nat -> St -> result St)
      (k n : nat) (st st' : St) :
  (k <= n)%nat -> for_range body (seq 0 n) st = Ok st' ->
  exists st'', for_range body (seq 0 k) st = Ok st''.
Proof.
  intros Hkn H.
  destruct (for_range body (seq 0 k) st) as [st''|e] eqn:E; [eauto|].
  rewrite (for_range_Raise body k n st e Hkn E) in H. discriminate H.
Qed.

Lemma free_run_extends {F : Type} {num : Num F} (cfg : Config F)
      (k j : nat) (st st' : FreeState F) :
  free_run cfg k = Ok st -> free_run cfg (k + j) = Ok st' ->
  exists t, free_T_cpu_hist st' = free_T_cpu_hist st ++ t.
Proof.
  intros Hk. revert st'. induction j as [|j IH]; intros st' Hj.
  - rewrite Nat.add_0_r, Hk in Hj. injection Hj as <-.
    exists []. rewrite app_nil_r. reflexivity.
  - rewrite Nat.add_succ_r in Hj. unfold free_run in Hj, IH.
    rewrite for_range_snoc in Hj. apply bind_Ok in Hj as (st1 & H1 & Hi).
    destruct (IH st1 H1) as (t & Et).
    apply free_iter_Ok in Hi as (a & _ & _ & HT).
    exists (t ++ [T_cpu (free_temps st')]).
    rewrite HT, Et, app_assoc. reflexivity.
Qed.

(** X17.  The two simulations coincide up to the first crossing of the
    upper threshold: if the core temperature observed in the first [n]
    iterations of the controlled run does not exceed it, the two returned
    core-temperature trajectories have the same first [n] entries, float
    for float. *)
Theorem trajectories_agree_until_crossing (trace : list float) (n : nat)
        (T_free T_dvfs freq_dvfs volt_dvfs : list float) :
  never_exceeds (default_config trace) n ->
  (n <= length (time (default_config trace)))%nat ->
  simulate_free_running (default_config trace) = Ok T_free ->
  simulate_dvfs_strict (default_config trace)
  = Ok (T_dvfs, freq_dvfs, volt_dvfs) ->
  firstn n T_dvfs = firstn n T_free.
Proof.
  intros Hcool Hn Hfree Hdvfs.
  unfold simulate_free_running in Hfree.
  apply bind_Ok in Hfree as (sfN & HfN & Hfree). injection Hfree as <-.
  unfold simulate_dvfs_strict in Hdvfs.
  apply bind_Ok in Hdvfs as (sdN & HdN & Hdvfs). injection Hdvfs as <- _ _.
  destruct (for_range_prefix_Ok _ n _ _ _ Hn HfN) as (sf & Hsf).
  destruct (for_range_prefix_Ok _ n _ _ _ Hn HdN) as (sd & Hsd).
  fold (free_run (default_config trace) n) in Hsf.
  fold (dvfs_run (default_config trace) n) in Hsd.
  pose proof (in_step_run trace n n Hcool (le_n _)) as Hstep.
  rewrite Hsd, Hsf in Hstep. cbn [in_step] in Hstep.
  destruct Hstep as (_ & Hhist & _).
  destruct (dvfs_run_hist _ n sd Hsd) as (_ & _ & _ & Hlen).
  replace (length (time (default_config trace)))
    with (n + (length (time (default_config trace)) - n))%nat
    in HfN, HdN by lia.
  destruct (dvfs_run_extends _ n _ sd sdN Hsd HdN) as (tT & _ & _ & -> & _).
  destruct (free_run_extends _ n _ sf sfN Hsf HfN) as (t & ->).
  rewrite <- (firstn_own_length (T_cpu_hist sd) tT n Hlen).
  rewrite <- Hhist in *.
  rewrite <- (firstn_own_length (T_cpu_hist sd) t n Hlen). reflexivity.
Qed.

Lemma trajectories_agree_until_crossing_witness :
  exists T_free T_dvfs freq_dvfs volt_dvfs : list float,
    simulate_free_running (default_config sustained_load) = Ok T_free
    /\ simulate_dvfs_strict (default_config sustained_load)
       = Ok (T_dvfs, freq_dvfs, volt_dvfs)
    /\ firstn 40 T_dvfs = firstn 40 T_free.
Proof.
  destruct (simulate_free_running (default_config sustained_load))
    as [T_free|e] eqn:Ef; [|vm_compute in Ef; discriminate Ef].
  destruct (simulate_dvfs_strict (default_config sustained_load))
    as [[[T_dvfs freq_dvfs] volt_dvfs]|e] eqn:Ed;
    [|vm_compute in Ed; discriminate Ed].
  exists T_free, T_dvfs, freq_dvfs, volt_dvfs.
  split; [reflexivity|]. split; [reflexivity|].
  apply (trajectories_agree_until_crossing sustained_load 40
           T_free T_dvfs freq_dvfs volt_dvfs).
  - apply never_exceeds_check_sound. vm_compute. reflexivity.
  - apply Nat.leb_le. vm_compute. reflexivity.
  - exact Ef.
  - exact Ed.
Defined.
